(** * TMS6100 phrase-ROM emulator: the two interrupt handlers of
      [Firmware/tms6100/main.c] as state transformers, and their protocol
      properties.

    The firmware is two interrupt service routines working on one global
    [struct tms6100State] and a handful of AVR I/O register bits.  Each
    routine is embedded as a statement of a small state-and-log monad: the
    state is the struct together with the register bits the routines write,
    the log is the list of writes made to the direction and output latches of
    the shared ADD8 data pin.  An AVR handler runs with interrupts disabled,
    so the two routines never interleave: the behaviour of the firmware is
    its state after a list of edges. *)

From Stdlib Require Import ZArith List Bool Lia.
Import ListNotations.
Open Scope Z_scope.

(** ** Machine integers

    [uint8_t] and [uint32_t] are [Z] with the wrap-around of the C type
    written where the code performs arithmetic. *)

Definition u8 (x : Z) : Z := x mod 256.
Definition u32 (x : Z) : Z := x mod 4294967296.

(** ** struct tms6100State

    The four flags are [uint8_t] in the source; they are only ever assigned
    the macros [FALSE] and [TRUE] and only ever compared with them, so they
    are [bool] here. *)

Record tms6100State : Type := mkTms6100State {
  address : Z;                    (* uint32_t *)
  bankSelectNumber : Z;           (* uint32_t *)
  loadAddressNibble : Z;          (* uint8_t  *)
  validAddressLoadedFlag : bool;
  readDataActive : bool;
  currentBit : Z;                 (* uint8_t  *)
  currentByte : Z;                (* uint8_t  *)
  add8InputFlag : bool;
  bankActiveFlag : bool
}.

(** ** The register bits the handlers write

    One field per bit: [TMS6100_ADD8_DDR & TMS6100_ADD8] (true = output),
    [TMS6100_ADD8_PORT & TMS6100_ADD8], the two interrupt-sense bits of M0 in
    EICRA, the M0 flag in EIFR, the M0 enable in EIMSK, the three debug
    outputs, and SPCR as a whole. *)

Record avrRegisters : Type := mkAvrRegisters {
  ADD8_DDR : bool;
  ADD8_PORT : bool;
  M0_ISC1 : bool;
  M0_ISC0 : bool;
  M0_INTF : bool;
  M0_INT : bool;
  DEBUG0_PORT : bool;
  DEBUG1_PORT : bool;
  DEBUG2_PORT : bool;
  SPCR : Z
}.

Record mcu : Type := mkMcu {
  tms6100 : tms6100State;
  regs : avrRegisters
}.

(** The four address/data input pins as sampled through the PIN registers. *)

Record addressPins : Type := mkAddressPins {
  ADD1_PIN : bool;
  ADD2_PIN : bool;
  ADD4_PIN : bool;
  ADD8_PIN : bool
}.

(** Writes to the two latches of the ADD8 pin, in program order. *)

Inductive add8Write : Type :=
| DDR_write (output : bool)
| PORT_write (level : bool).

(** What the other devices on the bus see on ADD8. *)

Inductive lineLevel : Type :=
| Released
| Driven (level : bool).

(** ** Field updates *)

Definition with_address (v : Z) (s : tms6100State) : tms6100State :=
  mkTms6100State v (bankSelectNumber s) (loadAddressNibble s)
    (validAddressLoadedFlag s) (readDataActive s) (currentBit s)
    (currentByte s) (add8InputFlag s) (bankActiveFlag s).

Definition with_bankSelectNumber (v : Z) (s : tms6100State) : tms6100State :=
  mkTms6100State (address s) v (loadAddressNibble s)
    (validAddressLoadedFlag s) (readDataActive s) (currentBit s)
    (currentByte s) (add8InputFlag s) (bankActiveFlag s).

Definition with_loadAddressNibble (v : Z) (s : tms6100State) : tms6100State :=
  mkTms6100State (address s) (bankSelectNumber s) v
    (validAddressLoadedFlag s) (readDataActive s) (currentBit s)
    (currentByte s) (add8InputFlag s) (bankActiveFlag s).

Definition with_validAddressLoadedFlag (v : bool) (s : tms6100State)
  : tms6100State :=
  mkTms6100State (address s) (bankSelectNumber s) (loadAddressNibble s)
    v (readDataActive s) (currentBit s)
    (currentByte s) (add8InputFlag s) (bankActiveFlag s).

Definition with_readDataActive (v : bool) (s : tms6100State) : tms6100State :=
  mkTms6100State (address s) (bankSelectNumber s) (loadAddressNibble s)
    (validAddressLoadedFlag s) v (currentBit s)
    (currentByte s) (add8InputFlag s) (bankActiveFlag s).

Definition with_currentBit (v : Z) (s : tms6100State) : tms6100State :=
  mkTms6100State (address s) (bankSelectNumber s) (loadAddressNibble s)
    (validAddressLoadedFlag s) (readDataActive s) v
    (currentByte s) (add8InputFlag s) (bankActiveFlag s).

Definition with_currentByte (v : Z) (s : tms6100State) : tms6100State :=
  mkTms6100State (address s) (bankSelectNumber s) (loadAddressNibble s)
    (validAddressLoadedFlag s) (readDataActive s) (currentBit s)
    v (add8InputFlag s) (bankActiveFlag s).

Definition with_add8InputFlag (v : bool) (s : tms6100State) : tms6100State :=
  mkTms6100State (address s) (bankSelectNumber s) (loadAddressNibble s)
    (validAddressLoadedFlag s) (readDataActive s) (currentBit s)
    (currentByte s) v (bankActiveFlag s).

Definition with_bankActiveFlag (v : bool) (s : tms6100State) : tms6100State :=
  mkTms6100State (address s) (bankSelectNumber s) (loadAddressNibble s)
    (validAddressLoadedFlag s) (readDataActive s) (currentBit s)
    (currentByte s) (add8InputFlag s) v.

Definition with_ADD8_DDR (v : bool) (r : avrRegisters) : avrRegisters :=
  mkAvrRegisters v (ADD8_PORT r) (M0_ISC1 r) (M0_ISC0 r) (M0_INTF r) (M0_INT r)
    (DEBUG0_PORT r) (DEBUG1_PORT r) (DEBUG2_PORT r) (SPCR r).

Definition with_ADD8_PORT (v : bool) (r : avrRegisters) : avrRegisters :=
  mkAvrRegisters (ADD8_DDR r) v (M0_ISC1 r) (M0_ISC0 r) (M0_INTF r) (M0_INT r)
    (DEBUG0_PORT r) (DEBUG1_PORT r) (DEBUG2_PORT r) (SPCR r).

Definition with_M0_ISC1 (v : bool) (r : avrRegisters) : avrRegisters :=
  mkAvrRegisters (ADD8_DDR r) (ADD8_PORT r) v (M0_ISC0 r) (M0_INTF r) (M0_INT r)
    (DEBUG0_PORT r) (DEBUG1_PORT r) (DEBUG2_PORT r) (SPCR r).

Definition with_M0_ISC0 (v : bool) (r : avrRegisters) : avrRegisters :=
  mkAvrRegisters (ADD8_DDR r) (ADD8_PORT r) (M0_ISC1 r) v (M0_INTF r) (M0_INT r)
    (DEBUG0_PORT r) (DEBUG1_PORT r) (DEBUG2_PORT r) (SPCR r).

Definition with_M0_INTF (v : bool) (r : avrRegisters) : avrRegisters :=
  mkAvrRegisters (ADD8_DDR r) (ADD8_PORT r) (M0_ISC1 r) (M0_ISC0 r) v (M0_INT r)
    (DEBUG0_PORT r) (DEBUG1_PORT r) (DEBUG2_PORT r) (SPCR r).

Definition with_M0_INT (v : bool) (r : avrRegisters) : avrRegisters :=
  mkAvrRegisters (ADD8_DDR r) (ADD8_PORT r) (M0_ISC1 r) (M0_ISC0 r) (M0_INTF r) v
    (DEBUG0_PORT r) (DEBUG1_PORT r) (DEBUG2_PORT r) (SPCR r).

Definition with_DEBUG0_PORT (v : bool) (r : avrRegisters) : avrRegisters :=
  mkAvrRegisters (ADD8_DDR r) (ADD8_PORT r) (M0_ISC1 r) (M0_ISC0 r) (M0_INTF r)
    (M0_INT r) v (DEBUG1_PORT r) (DEBUG2_PORT r) (SPCR r).

Definition with_DEBUG1_PORT (v : bool) (r : avrRegisters) : avrRegisters :=
  mkAvrRegisters (ADD8_DDR r) (ADD8_PORT r) (M0_ISC1 r) (M0_ISC0 r) (M0_INTF r)
    (M0_INT r) (DEBUG0_PORT r) v (DEBUG2_PORT r) (SPCR r).

Definition with_DEBUG2_PORT (v : bool) (r : avrRegisters) : avrRegisters :=
  mkAvrRegisters (ADD8_DDR r) (ADD8_PORT r) (M0_ISC1 r) (M0_ISC0 r) (M0_INTF r)
    (M0_INT r) (DEBUG0_PORT r) (DEBUG1_PORT r) v (SPCR r).

Definition with_SPCR (v : Z) (r : avrRegisters) : avrRegisters :=
  mkAvrRegisters (ADD8_DDR r) (ADD8_PORT r) (M0_ISC1 r) (M0_ISC0 r) (M0_INTF r)
    (M0_INT r) (DEBUG0_PORT r) (DEBUG1_PORT r) (DEBUG2_PORT r) v.

(** ** Statements

    A statement takes the machine to a new machine and says which writes it
    made to the ADD8 latches. *)

Definition stmt : Type := mcu -> mcu * list add8Write.

Definition skip : stmt := fun m => (m, []).

Definition seq (a b : stmt) : stmt :=
  fun m =>
    let r1 := a m in
    let r2 := b (fst r1) in
    (fst r2, snd r1 ++ snd r2).

Definition ifelse (c : mcu -> bool) (a b : stmt) : stmt :=
  fun m => if c m then a m else b m.

Definition when (c : mcu -> bool) (a : stmt) : stmt := ifelse c a skip.

Definition local {A : Type} (e : mcu -> A) (k : A -> stmt) : stmt :=
  fun m => k (e m) m.

Declare Scope stmt_scope.
Delimit Scope stmt_scope with stmt.
Bind Scope stmt_scope with stmt.
Notation "a ;; b" := (seq a b) (at level 61, right associativity) : stmt_scope.

(** Reading a struct field of the machine. *)

Definition fld {A : Type} (f : tms6100State -> A) : mcu -> A :=
  fun m => f (tms6100 m).

(** Assigning one: the right-hand side is evaluated in the machine before
    the write. *)

Definition store {A : Type} (upd : A -> tms6100State -> tms6100State)
  (e : mcu -> A) : stmt :=
  fun m => (mkMcu (upd (e m) (tms6100 m)) (regs m), []).

Definition out {A : Type} (upd : A -> avrRegisters -> avrRegisters) (v : A)
  : stmt :=
  fun m => (mkMcu (tms6100 m) (upd v (regs m)), []).

(** [TMS6100_ADD8_DDR |= TMS6100_ADD8] is [write_ADD8_DDR true], the [&= ~]
    form is [write_ADD8_DDR false]; the same for the PORT latch. *)

Definition write_ADD8_DDR (output : bool) : stmt :=
  fun m => (mkMcu (tms6100 m) (with_ADD8_DDR output (regs m)),
            [DDR_write output]).

Definition write_ADD8_PORT (level : bool) : stmt :=
  fun m => (mkMcu (tms6100 m) (with_ADD8_PORT level (regs m)),
            [PORT_write level]).

Definition const {A : Type} (v : A) : mcu -> A := fun _ => v.

(** The level ADD8 presents to the bus: the PORT latch when the pin is an
    output, nothing when it is an input. *)

Definition ADD8_line (m : mcu) : lineLevel :=
  if ADD8_DDR (regs m) then Driven (ADD8_PORT (regs m)) else Released.

(** The levels a log of latch writes puts on the bus: every PORT write made
    while the pin is an output.  [dir] is the direction before the log. *)

Fixpoint driven_levels (dir : bool) (ws : list add8Write) : list bool :=
  match ws with
  | [] => []
  | DDR_write d :: ws' => driven_levels d ws'
  | PORT_write l :: ws' =>
      if dir then l :: driven_levels dir ws' else driven_levels dir ws'
  end.

(** The value [addressNibble] has after the four pin tests of the M1
    handler. *)

Definition addressNibble (p : addressPins) : Z :=
  (if ADD1_PIN p then 1 else 0) + (if ADD2_PIN p then 2 else 0) +
  (if ADD4_PIN p then 4 else 0) + (if ADD8_PIN p then 8 else 0).

(** The pin sample that carries a given nibble. *)

Definition pins_of_nibble (n : Z) : addressPins :=
  mkAddressPins (Z.testbit n 0) (Z.testbit n 1) (Z.testbit n 2) (Z.testbit n 3).

(** [tms6100.f == TRUE] and [tms6100.f == FALSE]. *)

Definition TRUE : bool := true.
Definition FALSE : bool := false.

Definition flag_is (f : tms6100State -> bool) (v : bool) : mcu -> bool :=
  fun m => Bool.eqb (f (tms6100 m)) v.

(** ** ISR(TMS6100_M1_INT_VECT): rising edge of M1, LOAD ADDRESS

    [pins] is what the four PIN registers read when the handler samples
    them. *)

Definition ISR_TMS6100_M1_INT_VECT (pins : addressPins) : stmt :=
  ( (* Turn the SPI off *)
    out with_SPCR 0 ;;
    (* Cancel the read data command *)
    store with_readDataActive (const FALSE) ;;
    store with_bankActiveFlag (const FALSE) ;;
    out with_DEBUG1_PORT false ;;
    out with_DEBUG2_PORT false ;;
    (* Interrupt on the falling edge of M0, nothing pending, enabled *)
    out with_M0_ISC1 true ;;
    out with_M0_ISC0 false ;;
    out with_M0_INTF false ;;
    out with_M0_INT true ;;
    (* Set the ADD8 bus pin to input mode *)
    when (flag_is add8InputFlag FALSE)
      ( write_ADD8_DDR false ;;
        write_ADD8_PORT false ;;
        store with_add8InputFlag (const TRUE) ) ;;
    (* Read the nibble from the address bus *)
    local (const (addressNibble pins)) (fun addressNibble =>
    (* First nibble of a new 20-bit address: clear the address register *)
    when (fun m => fld loadAddressNibble m =? 0)
      (store with_address (const 0)) ;;
    (* Store the nibble in its position of the 20-bit address register *)
    when (fun m => fld loadAddressNibble m =? 0)
      (store with_address
         (fun m => Z.lor (fld address m) (u32 (Z.shiftl addressNibble 0)))) ;;
    when (fun m => fld loadAddressNibble m =? 1)
      (store with_address
         (fun m => Z.lor (fld address m) (u32 (Z.shiftl addressNibble 4)))) ;;
    when (fun m => fld loadAddressNibble m =? 2)
      (store with_address
         (fun m => Z.lor (fld address m) (u32 (Z.shiftl addressNibble 8)))) ;;
    when (fun m => fld loadAddressNibble m =? 3)
      (store with_address
         (fun m => Z.lor (fld address m) (u32 (Z.shiftl addressNibble 12)))) ;;
    when (fun m => fld loadAddressNibble m =? 4)
      (store with_address
         (fun m => Z.lor (fld address m) (u32 (Z.shiftl addressNibble 16)))) ;;
    (* Increment the nibble pointer *)
    store with_loadAddressNibble (fun m => u8 (fld loadAddressNibble m + 1)) ;;
    (* Was the received nibble the 5th and final nibble of an address? *)
    ifelse (fun m => fld loadAddressNibble m >? 4)
      ( store with_validAddressLoadedFlag (const TRUE) ;;
        store with_loadAddressNibble (const 0) ;;
        out with_DEBUG0_PORT true ;;
        store with_bankSelectNumber
          (fun m => Z.shiftr (Z.land (fld address m) 0x3C000) 14) ;;
        store with_address (fun m => Z.land (fld address m) 0x3FFFF) )
      ( store with_validAddressLoadedFlag (const FALSE) ;;
        out with_DEBUG0_PORT false )) )%stmt.

(** ** initialiseHardware and the set-up part of main

    Only the writes to modelled registers appear.  [power_on] is the machine
    after reset: I/O registers and the zero-initialised global are all
    zero. *)

Definition initialiseHardware : stmt :=
  ( write_ADD8_DDR false ;;
    write_ADD8_PORT false ;;
    store with_address (const 0) ;;
    store with_loadAddressNibble (const 0) ;;
    store with_validAddressLoadedFlag (const FALSE) ;;
    store with_readDataActive (const FALSE) ;;
    store with_currentBit (const 0) ;;
    store with_currentByte (const 0) ;;
    store with_add8InputFlag (const TRUE) ;;
    store with_bankActiveFlag (const FALSE) ;;
    out with_DEBUG0_PORT false ;;
    out with_DEBUG1_PORT false ;;
    out with_DEBUG2_PORT false )%stmt.

(** [main] up to its idle loop. *)

Definition main : stmt :=
  ( initialiseHardware ;;
    out with_M0_ISC1 true ;;
    out with_M0_INT true ;;
    out with_SPCR 0 )%stmt.

Definition power_on : mcu :=
  mkMcu (mkTms6100State 0 0 0 false false 0 0 false false)
        (mkAvrRegisters false false false false false false false false false 0).

Definition boot : mcu := fst (main power_on).

(** ** Edge events

    The two interrupt sources: a rising edge of M1 with the pin levels the
    handler will sample, and an edge of M0. *)

Inductive edge : Type :=
| LOAD_ADDRESS (pins : addressPins)
| READ_DATA.

Definition load_nibbles (ns : list Z) : list edge :=
  map (fun n => LOAD_ADDRESS (pins_of_nibble n)) ns.

(** ** A concrete device for the examples

    A PHROM image, and four states written out field by field: an address
    loaded in bank 2 and one in bank 5, a session on the last bit of the
    last byte of bank 2, and a session on the last bit of a byte with the
    address register at the top of its 32 bits. *)

Definition demo_phromData (a : Z) : Z := (37 * a + 0xA5) mod 256.

Definition demo_loaded_bank2 : mcu :=
  mkMcu (mkTms6100State 0x08000 2 0 true false 0 0 true false)
        (mkAvrRegisters false false true false false true true false false 0).

Definition demo_loaded_bank5 : mcu :=
  mkMcu (mkTms6100State 0x14000 5 0 true false 0 0 true false)
        (mkAvrRegisters false false true false false true true false false 0).

Definition demo_last_bit : mcu :=
  mkMcu (mkTms6100State 0x0BFFF 2 0 true true 7 128 false true)
        (mkAvrRegisters true false true true false true true true true 0).

Definition demo_top : mcu :=
  mkMcu (mkTms6100State 0xFFFFFFFF 15 0 true true 7 0xFF true false)
        (mkAvrRegisters false false true true false true true true false 0).

Section Emulator.

(** The two things the PHROM image header provides: the bank this device
    answers to, and the data table (index to stored value). *)

Variable PHROM_BANK : Z.
Variable phromData : Z -> Z.

(** [pgm_read_byte (&(phromData[a]))] yields a [uint8_t]. *)

Definition pgm_read_byte (a : Z) : Z := u8 (phromData a).

(** ** ISR(TMS6100_M0_INT_VECT): edge of M0, READ DATA

    [1 << tms6100.currentBit] is computed in [int]; the model's [Z.shiftl]
    agrees with it for the cursor values 0..7 the firmware ever reaches. *)

Definition ISR_TMS6100_M0_INT_VECT : stmt :=
  ( ifelse (flag_is readDataActive TRUE)
      ( (* ADD8 direction follows the bank flag *)
        ifelse (flag_is bankActiveFlag TRUE)
          (when (flag_is add8InputFlag TRUE)
             ( write_ADD8_DDR true ;;
               store with_add8InputFlag (const FALSE) ))
          (when (flag_is add8InputFlag FALSE)
             ( write_ADD8_DDR false ;;
               write_ADD8_PORT false ;;
               store with_add8InputFlag (const TRUE) )) ;;
        (* If this PHROM's bank is active, write data *)
        when (flag_is bankActiveFlag TRUE)
          (local
             (fun m =>
                if Z.land (fld currentByte m) (Z.shiftl 1 (fld currentBit m)) =? 0
                then 0 else 1)
             (fun dataBit =>
                if dataBit =? 0 then write_ADD8_PORT false
                else write_ADD8_PORT true)) ;;
        (* Point to the next bit *)
        store with_currentBit (fun m => u8 (fld currentBit m + 1)) ;;
        (* End of current byte? *)
        when (fun m => fld currentBit m >? 7)
          ( store with_currentBit (const 0) ;;
            store with_address (fun m => u32 (fld address m + 1)) ;;
            local (fun m => Z.shiftr (Z.land (fld address m) 0x3C000) 14)
              (fun currentBank =>
            local (fun m => Z.land (fld address m) 0x3FFF)
              (fun localAddress =>
            if currentBank =? PHROM_BANK
            then
              ( store with_currentByte (const (pgm_read_byte localAddress)) ;;
                store with_bankActiveFlag (const TRUE) ;;
                out with_DEBUG2_PORT true )
            else
              ( store with_currentByte (const 0xFF) ;;
                store with_bankActiveFlag (const FALSE) ;;
                out with_DEBUG2_PORT false ))) ) )
      ( (* Check for a 'dummy' read (indicating reset requested) *)
        ifelse (flag_is validAddressLoadedFlag FALSE)
          ( store with_address (const 0) ;;
            store with_loadAddressNibble (const 0) )
          ( store with_readDataActive (const TRUE) ;;
            out with_DEBUG1_PORT true ;;
            local (fun m => Z.shiftr (Z.land (fld address m) 0x3C000) 14)
              (fun currentBank =>
            local (fun m => Z.land (fld address m) 0x3FFF)
              (fun localAddress =>
            if currentBank =? PHROM_BANK
            then
              ( store with_currentByte (const (pgm_read_byte localAddress)) ;;
                store with_currentBit (const 0) ;;
                store with_bankActiveFlag (const TRUE) ;;
                out with_DEBUG2_PORT true )
            else
              ( store with_currentByte (const 0xFF) ;;
                store with_currentBit (const 0) ;;
                store with_bankActiveFlag (const FALSE) ;;
                out with_DEBUG2_PORT false ))) ;;
            (* From now on interrupt on the leading edge of M0 *)
            out with_M0_ISC1 true ;;
            out with_M0_ISC0 true ) ) )%stmt.

(** ** Runs *)

Definition handler (e : edge) : stmt :=
  match e with
  | LOAD_ADDRESS pins => ISR_TMS6100_M1_INT_VECT pins
  | READ_DATA => ISR_TMS6100_M0_INT_VECT
  end.

Fixpoint run (es : list edge) : stmt :=
  match es with
  | [] => skip
  | e :: es' => (handler e ;; run es')%stmt
  end.

(** The level on ADD8 after each event of a run. *)

Fixpoint observe (es : list edge) (m : mcu) : list lineLevel :=
  match es with
  | [] => []
  | e :: es' =>
      let m' := fst (handler e m) in
      ADD8_line m' :: observe es' m'
  end.

(** States the firmware can be in: [boot] followed by any edges. *)

Inductive reachable : mcu -> Prop :=
| reachable_boot : reachable boot
| reachable_edge (m : mcu) (e : edge) :
    reachable m -> reachable (fst (handler e m)).

(** ** Vocabulary of the properties *)

(** The bank and the offset inside the bank that both handlers extract from
    an address: [(a & 0x3C000) >> 14] and [a & 0x3FFF]. *)

Definition bank_of (a : Z) : Z := Z.shiftr (Z.land a 0x3C000) 14.
Definition offset_of (a : Z) : Z := Z.land a 0x3FFF.

(** [add8InputFlag] is the firmware's own record of the direction of ADD8.
    The record is right when it mirrors the DDR bit, and the pin is an
    output only inside a read session. *)

Definition hw_consistent (m : mcu) : bool :=
  Bool.eqb (add8InputFlag (tms6100 m)) (negb (ADD8_DDR (regs m))) &&
  (readDataActive (tms6100 m) || add8InputFlag (tms6100 m)).

(** The range the nibble pointer is documented to stay in. *)

Definition nibble_pointer_ok (m : mcu) : Prop :=
  0 <= loadAddressNibble (tms6100 m) <= 4.

(** Ranges of the integer fields, together with [hw_consistent]. *)

Definition state_ok (m : mcu) : Prop :=
  nibble_pointer_ok m /\
  (0 <= currentBit (tms6100 m) <= 7) /\
  (0 <= address (tms6100 m) < 4294967296) /\
  (0 <= currentByte (tms6100 m) < 256) /\
  hw_consistent m = true.

(** The eight bits of a byte in transmission order. *)

Definition bits_lsb_first (byte : Z) : list bool :=
  map (Z.testbit byte) [0; 1; 2; 3; 4; 5; 6; 7].

(** ** Vocabulary of the further properties *)

(** The register bits the handlers keep in step with the struct: the edge
    sense and enable of M0 and the SPI control register. *)

Definition registers_mirror (m : mcu) : Prop :=
  M0_ISC1 (regs m) = true /\
  M0_ISC0 (regs m) = readDataActive (tms6100 m) /\
  M0_INT (regs m) = true /\
  SPCR (regs m) = 0.

(** The three debug outputs and the flags they show. *)

Definition debug_mirror (m : mcu) : Prop :=
  DEBUG0_PORT (regs m) = validAddressLoadedFlag (tms6100 m) /\
  DEBUG1_PORT (regs m) = readDataActive (tms6100 m) /\
  DEBUG2_PORT (regs m) = bankActiveFlag (tms6100 m).

(** ADD8 is an output only inside a session, and its PORT latch is low
    whenever it is an input (the pull-up is off). *)

Definition bus_discipline (m : mcu) : Prop :=
  (ADD8_DDR (regs m) = true -> readDataActive (tms6100 m) = true) /\
  (ADD8_DDR (regs m) = false -> ADD8_PORT (regs m) = false).

(** How the flags and the two address registers hang together. *)

Definition session_flags_ok (m : mcu) : Prop :=
  (readDataActive (tms6100 m) = true ->
   validAddressLoadedFlag (tms6100 m) = true) /\
  (bankActiveFlag (tms6100 m) = true -> readDataActive (tms6100 m) = true) /\
  (readDataActive (tms6100 m) = false ->
   validAddressLoadedFlag (tms6100 m) = true ->
   (0 <= address (tms6100 m) <= 0x3FFFF) /\
   bankSelectNumber (tms6100 m) = bank_of (address (tms6100 m))) /\
  (0 <= bankSelectNumber (tms6100 m) < 16).

Definition firmware_ok (m : mcu) : Prop :=
  state_ok m /\ registers_mirror m /\ debug_mirror m /\
  bus_discipline m /\ session_flags_ok m.

(** The machine with its address register cut to 18 bits. *)

Definition mask18 (m : mcu) : mcu :=
  mkMcu (with_address (Z.land (address (tms6100 m)) 0x3FFFF) (tms6100 m))
        (regs m).

(** A session at the start of a byte: the cursor is 0, the bank flag says
    whether the address is in this device's bank, the byte of an address in
    the bank has been fetched, and the direction flag mirrors the DDR
    bit. *)

Definition byte_start (m : mcu) : Prop :=
  readDataActive (tms6100 m) = true /\
  currentBit (tms6100 m) = 0 /\
  bankActiveFlag (tms6100 m) = (bank_of (address (tms6100 m)) =? PHROM_BANK) /\
  (bankActiveFlag (tms6100 m) = true ->
   currentByte (tms6100 m) =
   pgm_read_byte (offset_of (address (tms6100 m)))) /\
  add8InputFlag (tms6100 m) = negb (ADD8_DDR (regs m)).

(** The eight clock edges of one byte, and of [n] bytes. *)

Definition byte_clocks (n : nat) : list edge :=
  concat (repeat (repeat READ_DATA 8) n).

(** What the bus shows after each of the eight clock edges of the byte at
    address [a]: its bits when the address is in this device's bank, nothing
    otherwise.  Then the same for [n] consecutive addresses of the 32-bit
    register. *)

Definition byte_lines (a : Z) : list lineLevel :=
  if bank_of a =? PHROM_BANK
  then map Driven (bits_lsb_first (pgm_read_byte (offset_of a)))
  else repeat Released 8.

Definition session_lines (a : Z) (n : nat) : list lineLevel :=
  concat (map (fun i => byte_lines (u32 (a + Z.of_nat i))) (List.seq 0 n)).

(** The pin samples of a list of LOAD ADDRESS edges. *)

Definition load_edges (ps : list addressPins) : list edge :=
  map LOAD_ADDRESS ps.

(** The level ADD8 presents after each write of a log of latch writes, in
    program order, read off the two latches as [ADD8_line] does.  [ddr] and
    [port] are the latches before the log. *)

Fixpoint line_trace (ddr port : bool) (ws : list add8Write)
  : list lineLevel :=
  match ws with
  | [] => []
  | DDR_write d :: ws' =>
      (if d then Driven port else Released) :: line_trace d port ws'
  | PORT_write l :: ws' =>
      (if ddr then Driven l else Released) :: line_trace ddr l ws'
  end.

(** ** Evaluating a handler on a machine given field by field *)

Ltac exec :=
  cbv [ISR_TMS6100_M0_INT_VECT ISR_TMS6100_M1_INT_VECT handler
       seq ifelse when local store out write_ADD8_DDR write_ADD8_PORT
       flag_is fld const skip fst snd app Bool.eqb TRUE FALSE
       tms6100 regs
       address bankSelectNumber loadAddressNibble validAddressLoadedFlag
       readDataActive currentBit currentByte add8InputFlag bankActiveFlag
       ADD8_DDR ADD8_PORT M0_ISC1 M0_ISC0 M0_INTF M0_INT
       DEBUG0_PORT DEBUG1_PORT DEBUG2_PORT SPCR
       with_address with_bankSelectNumber with_loadAddressNibble
       with_validAddressLoadedFlag with_readDataActive with_currentBit
       with_currentByte with_add8InputFlag with_bankActiveFlag
       with_ADD8_DDR with_ADD8_PORT with_M0_ISC1 with_M0_ISC0 with_M0_INTF
       with_M0_INT with_DEBUG0_PORT with_DEBUG1_PORT with_DEBUG2_PORT
       with_SPCR ADD8_line bank_of offset_of hw_consistent negb andb orb].

Ltac fields :=
  cbn [tms6100 regs
       address bankSelectNumber loadAddressNibble validAddressLoadedFlag
       readDataActive currentBit currentByte add8InputFlag bankActiveFlag
       ADD8_DDR ADD8_PORT M0_ISC1 M0_ISC0 M0_INTF M0_INT
       DEBUG0_PORT DEBUG1_PORT DEBUG2_PORT SPCR].

(** ** Arithmetic of the handlers *)

Lemma addressNibble_range (p : addressPins) : 0 <= addressNibble p < 16.
Proof. destruct p as [[|] [|] [|] [|]]; cbv; intuition congruence. Qed.

Lemma addressNibble_pins_of_nibble (n : Z) :
  0 <= n < 16 -> addressNibble (pins_of_nibble n) = n.
Proof.
  intros H. rewrite <- (Z2Nat.id n) by lia.
  assert (Z.to_nat n < 16)%nat as Hk by lia.
  revert Hk. generalize (Z.to_nat n). intros k Hk.
  do 16 (destruct k as [|k]; [reflexivity|]). lia.
Qed.

Lemma u32_small (x : Z) : 0 <= x < 4294967296 -> u32 x = x.
Proof. intros H. unfold u32. apply Z.mod_small. exact H. Qed.

Lemma u32_range (x : Z) : 0 <= u32 x < 4294967296.
Proof. unfold u32. apply Z.mod_pos_bound. reflexivity. Qed.

Lemma u32_nibble_shift (n k : Z) :
  0 <= n < 16 -> 0 <= k <= 16 -> u32 (Z.shiftl n k) = Z.shiftl n k.
Proof.
  intros Hn Hk. apply u32_small. rewrite Z.shiftl_mul_pow2 by lia.
  assert (0 < 2 ^ k <= 2 ^ 16) as Hp
    by (split; [apply Z.pow_pos_nonneg; lia | apply Z.pow_le_mono_r; lia]).
  change (2 ^ 16) with 65536 in Hp. nia.
Qed.

Lemma u8_range (x : Z) : 0 <= u8 x < 256.
Proof. unfold u8. apply Z.mod_pos_bound. reflexivity. Qed.

Lemma u8_succ (k : Z) : 0 <= k < 255 -> u8 (k + 1) = k + 1.
Proof. intros H. unfold u8. apply Z.mod_small. lia. Qed.

Lemma gtb_false (x y : Z) : x <= y -> (x >? y) = false.
Proof. intros H. rewrite Z.gtb_ltb. apply Z.ltb_ge. exact H. Qed.

(** Bits 14..17 of a word, the way the code extracts them and the way the
    data sheet numbers them. *)

Lemma bank_of_bits (a : Z) : bank_of a = Z.land (Z.shiftr a 14) 0xF.
Proof. unfold bank_of. rewrite Z.shiftr_land. reflexivity. Qed.

Lemma bank_of_range (a : Z) : 0 <= bank_of a < 16.
Proof.
  rewrite bank_of_bits. change 0xF with (Z.ones 4).
  rewrite Z.land_ones by lia. apply Z.mod_pos_bound. reflexivity.
Qed.

Lemma land_mask_range (a : Z) (n : Z) :
  0 <= n -> 0 <= Z.land a (Z.ones n) < 2 ^ n.
Proof.
  intros Hn. rewrite Z.land_ones by exact Hn.
  apply Z.mod_pos_bound. apply Z.pow_pos_nonneg; lia.
Qed.

Lemma lor_u32_range (a b : Z) :
  0 <= a < 4294967296 -> 0 <= b < 4294967296 -> 0 <= Z.lor a b < 4294967296.
Proof.
  intros Ha Hb. split.
  - apply Z.lor_nonneg. lia.
  - destruct (Z.eq_dec (Z.lor a b) 0) as [E | NE]; [rewrite E; reflexivity|].
    assert (0 < Z.lor a b) as Hpos
      by (assert (0 <= Z.lor a b) by (apply Z.lor_nonneg; lia); lia).
    change 4294967296 with (2 ^ 32). apply Z.log2_lt_pow2; [exact Hpos|].
    rewrite Z.log2_lor by lia.
    apply Z.max_lub_lt.
    + destruct (Z.eq_dec a 0) as [-> | Na]; [reflexivity|].
      apply Z.log2_lt_pow2; lia.
    + destruct (Z.eq_dec b 0) as [-> | Nb]; [reflexivity|].
      apply Z.log2_lt_pow2; lia.
Qed.

(** The test [(currentByte & (1 << currentBit)) == 0] reads bit
    [currentBit] of the byte. *)

Lemma mask_test (b k : Z) :
  0 <= k -> (Z.land b (Z.shiftl 1 k) =? 0) = negb (Z.testbit b k).
Proof.
  intros Hk. rewrite Z.shiftl_1_l.
  destruct (Z.testbit b k) eqn:Hb; simpl.
  - apply Z.eqb_neq. intros H0.
    assert (Z.testbit (Z.land b (2 ^ k)) k = true) as Ht
      by (rewrite Z.land_spec, Hb, Z.pow2_bits_true; [reflexivity | exact Hk]).
    rewrite H0, Z.bits_0 in Ht. discriminate.
  - apply Z.eqb_eq. apply Z.bits_inj'. intros i Hi.
    rewrite Z.land_spec, Z.bits_0, Z.pow2_bits_eqb by exact Hk.
    destruct (Z.eqb_spec k i) as [->|];
      [rewrite Hb; reflexivity | apply andb_false_r].
Qed.

(** ** One READ DATA edge, case by case *)

(** Outside a session with no valid address: the dummy read. *)

Lemma M0_dummy_read (m : mcu) :
  readDataActive (tms6100 m) = false ->
  validAddressLoadedFlag (tms6100 m) = false ->
  ISR_TMS6100_M0_INT_VECT m =
  (mkMcu (with_loadAddressNibble 0 (with_address 0 (tms6100 m))) (regs m), []).
Proof.
  destruct m as [[a bs i v rd k byte inp ba] r].
  fields. intros -> ->. exec. reflexivity.
Qed.

(** Outside a session with a valid address: the start pulse. *)

Lemma M0_start_pulse (m : mcu) :
  readDataActive (tms6100 m) = false ->
  validAddressLoadedFlag (tms6100 m) = true ->
  let own := bank_of (address (tms6100 m)) =? PHROM_BANK in
  ISR_TMS6100_M0_INT_VECT m =
  (mkMcu
     (with_bankActiveFlag own
        (with_currentBit 0
           (with_currentByte
              (if own then pgm_read_byte (offset_of (address (tms6100 m)))
               else 0xFF)
              (with_readDataActive true (tms6100 m)))))
     (with_M0_ISC0 true
        (with_M0_ISC1 true
           (with_DEBUG2_PORT own (with_DEBUG1_PORT true (regs m))))),
   []).
Proof.
  destruct m as [[a bs i v rd k byte inp ba] [ddr port i1 i0 fl en d0 d1 d2 sp]].
  fields. intros -> ->. exec.
  destruct (Z.shiftr (Z.land a 245760) 14 =? PHROM_BANK); exec; reflexivity.
Qed.

(** Inside a session, this bank active, before the last bit of a byte. *)

Lemma M0_clock_owning_mid (m : mcu) :
  readDataActive (tms6100 m) = true ->
  bankActiveFlag (tms6100 m) = true ->
  0 <= currentBit (tms6100 m) < 7 ->
  let bit := Z.testbit (currentByte (tms6100 m)) (currentBit (tms6100 m)) in
  ISR_TMS6100_M0_INT_VECT m =
  (mkMcu (with_currentBit (currentBit (tms6100 m) + 1)
            (with_add8InputFlag false (tms6100 m)))
         (with_ADD8_PORT bit
            (if add8InputFlag (tms6100 m) then with_ADD8_DDR true (regs m)
             else regs m)),
   (if add8InputFlag (tms6100 m) then [DDR_write true] else []) ++
   [PORT_write bit]).
Proof.
  destruct m as [[a bs i v rd k byte inp ba] [ddr port i1 i0 fl en d0 d1 d2 sp]].
  fields. intros -> -> Hk.
  pose proof (u8_succ k ltac:(lia)) as Hu.
  pose proof (gtb_false (k + 1) 7 ltac:(lia)) as Hg.
  pose proof (mask_test byte k ltac:(lia)) as Hbit.
  destruct inp; exec; rewrite Hbit; destruct (Z.testbit byte k);
    cbn [negb Z.eqb Pos.eqb]; exec; rewrite Hu, Hg; exec; reflexivity.
Qed.

(** Inside a session, this bank active, on the last bit of a byte. *)

Lemma M0_clock_owning_last (m : mcu) :
  readDataActive (tms6100 m) = true ->
  bankActiveFlag (tms6100 m) = true ->
  currentBit (tms6100 m) = 7 ->
  let bit := Z.testbit (currentByte (tms6100 m)) 7 in
  let next := u32 (address (tms6100 m) + 1) in
  let own := bank_of next =? PHROM_BANK in
  ISR_TMS6100_M0_INT_VECT m =
  (mkMcu (with_bankActiveFlag own
            (with_currentByte
               (if own then pgm_read_byte (offset_of next) else 0xFF)
               (with_address next
                  (with_currentBit 0
                     (with_add8InputFlag false (tms6100 m))))))
         (with_DEBUG2_PORT own
            (with_ADD8_PORT bit
               (if add8InputFlag (tms6100 m) then with_ADD8_DDR true (regs m)
                else regs m))),
   (if add8InputFlag (tms6100 m) then [DDR_write true] else []) ++
   [PORT_write bit]).
Proof.
  destruct m as [[a bs i v rd k byte inp ba] [ddr port i1 i0 fl en d0 d1 d2 sp]].
  fields. intros -> -> ->.
  pose proof (mask_test byte 7 ltac:(lia)) as Hbit.
  change (u8 (7 + 1)) with 8.
  destruct inp; exec; rewrite Hbit; destruct (Z.testbit byte 7);
    cbn [negb Z.eqb Pos.eqb]; exec;
    change (u8 (7 + 1)) with 8; change (8 >? 7) with true; exec;
    destruct (Z.shiftr (Z.land (u32 (a + 1)) 245760) 14 =? PHROM_BANK);
    exec; reflexivity.
Qed.

(** Inside a session, another bank active, before the last bit. *)

Lemma M0_clock_idle_mid (m : mcu) :
  readDataActive (tms6100 m) = true ->
  bankActiveFlag (tms6100 m) = false ->
  0 <= currentBit (tms6100 m) < 7 ->
  ISR_TMS6100_M0_INT_VECT m =
  (mkMcu (with_currentBit (currentBit (tms6100 m) + 1)
            (with_add8InputFlag true (tms6100 m)))
         (if add8InputFlag (tms6100 m) then regs m
          else with_ADD8_PORT false (with_ADD8_DDR false (regs m))),
   if add8InputFlag (tms6100 m) then []
   else [DDR_write false; PORT_write false]).
Proof.
  destruct m as [[a bs i v rd k byte inp ba] [ddr port i1 i0 fl en d0 d1 d2 sp]].
  fields. intros -> -> Hk.
  pose proof (u8_succ k ltac:(lia)) as Hu.
  pose proof (gtb_false (k + 1) 7 ltac:(lia)) as Hg.
  destruct inp; exec; rewrite Hu, Hg; exec; reflexivity.
Qed.

(** Inside a session, another bank active, on the last bit. *)

Lemma M0_clock_idle_last (m : mcu) :
  readDataActive (tms6100 m) = true ->
  bankActiveFlag (tms6100 m) = false ->
  currentBit (tms6100 m) = 7 ->
  let next := u32 (address (tms6100 m) + 1) in
  let own := bank_of next =? PHROM_BANK in
  ISR_TMS6100_M0_INT_VECT m =
  (mkMcu (with_bankActiveFlag own
            (with_currentByte
               (if own then pgm_read_byte (offset_of next) else 0xFF)
               (with_address next
                  (with_currentBit 0
                     (with_add8InputFlag true (tms6100 m))))))
         (with_DEBUG2_PORT own
            (if add8InputFlag (tms6100 m) then regs m
             else with_ADD8_PORT false (with_ADD8_DDR false (regs m)))),
   if add8InputFlag (tms6100 m) then []
   else [DDR_write false; PORT_write false]).
Proof.
  destruct m as [[a bs i v rd k byte inp ba] [ddr port i1 i0 fl en d0 d1 d2 sp]].
  fields. intros -> -> ->.
  destruct inp; exec;
    change (u8 (7 + 1)) with 8; change (8 >? 7) with true; exec;
    destruct (Z.shiftr (Z.land (u32 (a + 1)) 245760) 14 =? PHROM_BANK);
    exec; reflexivity.
Qed.

(** ** Following a run edge by edge *)

Ltac norm :=
  cbv [fst snd app Bool.eqb negb andb orb tms6100 regs
       address bankSelectNumber loadAddressNibble validAddressLoadedFlag
       readDataActive currentBit currentByte add8InputFlag bankActiveFlag
       ADD8_DDR ADD8_PORT M0_ISC1 M0_ISC0 M0_INTF M0_INT
       DEBUG0_PORT DEBUG1_PORT DEBUG2_PORT SPCR
       with_address with_bankSelectNumber with_loadAddressNibble
       with_validAddressLoadedFlag with_readDataActive with_currentBit
       with_currentByte with_add8InputFlag with_bankActiveFlag
       with_ADD8_DDR with_ADD8_PORT with_M0_ISC1 with_M0_ISC0 with_M0_INTF
       with_M0_INT with_DEBUG0_PORT with_DEBUG1_PORT with_DEBUG2_PORT
       with_SPCR ADD8_line driven_levels map bits_lsb_first].

Ltac side := fields; first [reflexivity | lia].

Ltac pulse lem :=
  match goal with
  | |- context [ISR_TMS6100_M0_INT_VECT (mkMcu ?s ?r)] =>
      rewrite (lem (mkMcu s r)) by side;
      norm; change (0 + 1) with 1; change (1 + 1) with 2; change (2 + 1) with 3;
      change (3 + 1) with 4; change (4 + 1) with 5; change (5 + 1) with 6;
      change (6 + 1) with 7
  end.

Ltac unroll := cbv [repeat observe run handler seq skip].

(** ** One LOAD ADDRESS edge *)

(** With the nibble pointer split by the shape of its binary numeral, each
    of the five position tests evaluates; only the final range test is left
    to a case distinction. *)

Ltac exec_any_pointer :=
  cbv -[u8 Z.gtb Z.lor Z.land Z.shiftl Z.shiftr u32 addressNibble];
  try match goal with
      | |- context [if ?c then _ else _] => destruct c
      end;
  cbv -[u8 Z.gtb Z.lor Z.land Z.shiftl Z.shiftr u32 addressNibble].

(** What the handler does whatever the nibble pointer is. *)

Lemma M1_cancel (pins : addressPins) (m : mcu) :
  let r := ISR_TMS6100_M1_INT_VECT pins m in
  readDataActive (tms6100 (fst r)) = false /\
  bankActiveFlag (tms6100 (fst r)) = false /\
  add8InputFlag (tms6100 (fst r)) = true /\
  ADD8_DDR (regs (fst r)) =
    (if add8InputFlag (tms6100 m) then ADD8_DDR (regs m) else false) /\
  snd r =
    (if add8InputFlag (tms6100 m) then []
     else [DDR_write false; PORT_write false]) /\
  currentBit (tms6100 (fst r)) = currentBit (tms6100 m) /\
  currentByte (tms6100 (fst r)) = currentByte (tms6100 m).
Proof.
  destruct m as [[a bs i v rd k byte inp ba] [ddr port i1 i0 fl en d0 d1 d2 sp]].
  destruct inp;
    destruct i as [|[[q|q|]|[q|[q|q|]|]|]|q];
    exec_any_pointer; repeat split; reflexivity.
Qed.

Ltac exec_M1 :=
  cbv -[Z.lor Z.land Z.shiftl Z.shiftr u32 addressNibble].

Ltac nibble_pointer_cases i H :=
  let E := fresh "E" in
  assert (i = 0 \/ i = 1 \/ i = 2 \/ i = 3 \/ i = 4) as E by lia;
  clear H;
  destruct E as [E | [E | [E | [E | E]]]]; subst i.

(** How the nibble pointer, the valid flag and the address register move. *)

Lemma M1_nibble_pointer (pins : addressPins) (m : mcu) :
  nibble_pointer_ok m ->
  let i := loadAddressNibble (tms6100 m) in
  let a := address (tms6100 m) in
  let s' := tms6100 (fst (ISR_TMS6100_M1_INT_VECT pins m)) in
  loadAddressNibble s' = (if i =? 4 then 0 else i + 1) /\
  validAddressLoadedFlag s' = (i =? 4) /\
  address s' =
    (let acc := Z.lor (if i =? 0 then 0 else a)
                      (u32 (Z.shiftl (addressNibble pins) (4 * i))) in
     if i =? 4 then Z.land acc 0x3FFFF else acc) /\
  bankSelectNumber s' =
    (if i =? 4
     then bank_of (Z.lor a (u32 (Z.shiftl (addressNibble pins) 16)))
     else bankSelectNumber (tms6100 m)).
Proof.
  destruct m as [[a bs i v rd k byte inp ba] [ddr port i1 i0 fl en d0 d1 d2 sp]].
  unfold nibble_pointer_ok. fields. intros Hi.
  nibble_pointer_cases i Hi; destruct inp; exec_M1; repeat split; reflexivity.
Qed.

(** ** The nibble pointer across READ DATA edges *)

Ltac exec_cases :=
  repeat (exec;
          try match goal with
              | |- context [if ?c then _ else _] => destruct c
              end).

Lemma M0_nibble_pointer (m : mcu) :
  loadAddressNibble (tms6100 (fst (ISR_TMS6100_M0_INT_VECT m))) =
  if negb (readDataActive (tms6100 m)) &&
     negb (validAddressLoadedFlag (tms6100 m))
  then 0 else loadAddressNibble (tms6100 m).
Proof.
  destruct m as [[a bs i v rd k byte inp ba] [ddr port i1 i0 fl en d0 d1 d2 sp]].
  destruct rd, v, ba, inp; exec_cases; reflexivity.
Qed.

(** ** Runs of several edges *)

Lemma run_app (es1 es2 : list edge) (m : mcu) :
  fst (run (es1 ++ es2) m) = fst (run es2 (fst (run es1 m))).
Proof.
  revert m. induction es1 as [|e es1 IH]; intros m; [reflexivity|].
  cbn [app run]. cbv [seq]. cbn [fst]. apply IH.
Qed.

Lemma run_snoc (es : list edge) (e : edge) (m : mcu) :
  fst (run (es ++ [e]) m) = fst (handler e (fst (run es m))).
Proof. rewrite run_app. reflexivity. Qed.

(** Five LOAD ADDRESS edges from nibble pointer 0. *)

Lemma run_five_loads (m : mcu) (p0 p1 p2 p3 p4 : addressPins) :
  loadAddressNibble (tms6100 m) = 0 ->
  let acc :=
    Z.lor (Z.lor (Z.lor (Z.lor (addressNibble p0)
                               (Z.shiftl (addressNibble p1) 4))
                        (Z.shiftl (addressNibble p2) 8))
                 (Z.shiftl (addressNibble p3) 12))
          (Z.shiftl (addressNibble p4) 16) in
  let m' := fst (run [LOAD_ADDRESS p0; LOAD_ADDRESS p1; LOAD_ADDRESS p2;
                      LOAD_ADDRESS p3; LOAD_ADDRESS p4] m) in
  address (tms6100 m') = Z.land acc 0x3FFFF /\
  validAddressLoadedFlag (tms6100 m') = true /\
  loadAddressNibble (tms6100 m') = 0 /\
  bankSelectNumber (tms6100 m') = bank_of acc /\
  readDataActive (tms6100 m') = false /\
  (hw_consistent m = true -> hw_consistent m' = true).
Proof.
  destruct m as [[a bs i v rd k byte inp ba] [ddr port i1 i0 fl en d0 d1 d2 sp]].
  intros Hi acc m'. cbn [tms6100 loadAddressNibble] in Hi. subst i.
  subst m' acc. unfold bank_of.
  pose proof (addressNibble_range p0) as R0.
  pose proof (addressNibble_range p1) as R1.
  pose proof (addressNibble_range p2) as R2.
  pose proof (addressNibble_range p3) as R3.
  pose proof (addressNibble_range p4) as R4.
  destruct inp, ddr; exec_M1;
    rewrite !u32_nibble_shift by lia;
    rewrite Z.shiftl_0_r, Z.lor_0_l;
    repeat split; try reflexivity; intros Hc; destruct rd; discriminate Hc.
Qed.

(** A start pulse on this device's bank and the eight clock edges after
    it. *)

Lemma session_first_byte (m : mcu) :
  hw_consistent m = true ->
  readDataActive (tms6100 m) = false ->
  validAddressLoadedFlag (tms6100 m) = true ->
  bank_of (address (tms6100 m)) = PHROM_BANK ->
  let byte := pgm_read_byte (offset_of (address (tms6100 m))) in
  let m1 := fst (handler READ_DATA m) in
  currentByte (tms6100 m1) = byte /\
  bankActiveFlag (tms6100 m1) = true /\
  ADD8_DDR (regs m1) = false /\
  observe (repeat READ_DATA 8) m1 = map Driven (bits_lsb_first byte) /\
  driven_levels (ADD8_DDR (regs m1)) (snd (run (repeat READ_DATA 8) m1)) =
    bits_lsb_first byte /\
  ADD8_line (fst (handler READ_DATA m1)) = Driven (Z.testbit byte 0).
Proof.
  destruct m as [[a bs i v rd k b0 inp ba] [ddr port i1 i0 fl en d0 d1 d2 sp]].
  fields. intros Hc -> -> Hbank.
  destruct inp, ddr; try (cbv in Hc; discriminate Hc). clear Hc.
  unroll.
  rewrite (M0_start_pulse (mkMcu _ _)) by side.
  fields. rewrite Hbank, Z.eqb_refl. norm.
  generalize (pgm_read_byte (offset_of a)). intros byte.
  do 7 pulse M0_clock_owning_mid.
  pulse M0_clock_owning_last.
  repeat split; reflexivity.
Qed.

(** ** Every reachable state is well formed *)

Lemma state_ok_boot : state_ok boot.
Proof. cbv. intuition discriminate. Qed.

Lemma state_ok_M1 (pins : addressPins) (m : mcu) :
  state_ok m -> state_ok (fst (ISR_TMS6100_M1_INT_VECT pins m)).
Proof.
  intros (Hi & Hk & Ha & Hb & Hc).
  destruct (M1_nibble_pointer pins m Hi) as (Hi' & _ & Ha' & _).
  destruct (M1_cancel pins m) as (Hrd & Hba & Hin & Hddr & _ & Hk' & Hb').
  pose proof (u32_range (Z.shiftl (addressNibble pins)
                                  (4 * loadAddressNibble (tms6100 m)))) as Hs.
  unfold state_ok, nibble_pointer_ok in *. cbv zeta in Ha'.
  repeat split.
  - rewrite Hi'. destruct (Z.eqb_spec (loadAddressNibble (tms6100 m)) 4); lia.
  - rewrite Hi'. destruct (Z.eqb_spec (loadAddressNibble (tms6100 m)) 4); lia.
  - rewrite Hk'. lia.
  - rewrite Hk'. lia.
  - rewrite Ha'. destruct (loadAddressNibble (tms6100 m) =? 4).
    + apply Z.land_nonneg. right. lia.
    + apply lor_u32_range; [destruct (_ =? 0); lia | exact Hs].
  - rewrite Ha'. destruct (loadAddressNibble (tms6100 m) =? 4).
    + pose proof (land_mask_range
                    (Z.lor (if loadAddressNibble (tms6100 m) =? 0 then 0
                            else address (tms6100 m))
                       (u32 (Z.shiftl (addressNibble pins)
                                      (4 * loadAddressNibble (tms6100 m)))))
                    18 ltac:(lia)) as Hm.
      change (Z.ones 18) with 0x3FFFF in Hm.
      change (2 ^ 18) with 262144 in Hm. lia.
    + apply lor_u32_range; [destruct (_ =? 0); lia | exact Hs].
  - rewrite Hb'. lia.
  - rewrite Hb'. lia.
  - unfold hw_consistent in *. rewrite Hrd, Hin, Hddr.
    destruct (add8InputFlag (tms6100 m)), (ADD8_DDR (regs m));
      try reflexivity; cbv in Hc; destruct (readDataActive (tms6100 m));
      discriminate Hc.
Qed.

Lemma state_ok_M0 (m : mcu) :
  state_ok m -> state_ok (fst (ISR_TMS6100_M0_INT_VECT m)).
Proof.
  destruct m as [[a bs i v rd k byte inp ba] [ddr port i1 i0 fl en d0 d1 d2 sp]].
  unfold state_ok, nibble_pointer_ok. fields.
  intros (Hi & Hk & Ha & Hb & Hc).
  pose proof (u32_range (a + 1)) as Hnext.
  pose proof (u8_range (phromData (offset_of (u32 (a + 1))))) as Hrom'.
  pose proof (u8_range (phromData (offset_of a))) as Hrom.
  fold (pgm_read_byte (offset_of (u32 (a + 1)))) in Hrom'.
  fold (pgm_read_byte (offset_of a)) in Hrom.
  assert (inp = negb ddr /\ (rd = false -> inp = true)) as [-> Hout]
    by (destruct inp, ddr, rd; cbv in Hc; try discriminate Hc;
        split; try reflexivity; intros; try reflexivity; discriminate).
  clear Hc.
  destruct rd.
  - assert (0 <= k < 7 \/ k = 7) as [Hmid | ->] by lia; destruct ba.
    + rewrite (M0_clock_owning_mid (mkMcu _ _)) by side.
      destruct ddr; norm; repeat split; (reflexivity || lia).
    + rewrite (M0_clock_idle_mid (mkMcu _ _)) by side.
      destruct ddr; norm; repeat split; (reflexivity || lia).
    + rewrite (M0_clock_owning_last (mkMcu _ _)) by side. fields.
      destruct (bank_of (u32 (a + 1)) =? PHROM_BANK);
        destruct ddr; norm; repeat split; (reflexivity || lia).
    + rewrite (M0_clock_idle_last (mkMcu _ _)) by side. fields.
      destruct (bank_of (u32 (a + 1)) =? PHROM_BANK);
        destruct ddr; norm; repeat split; (reflexivity || lia).
  - specialize (Hout eq_refl). destruct ddr; [discriminate Hout|]. destruct v.
    + rewrite (M0_start_pulse (mkMcu _ _)) by side. fields.
      destruct (bank_of a =? PHROM_BANK);
        norm; repeat split; (reflexivity || lia).
    + rewrite (M0_dummy_read (mkMcu _ _)) by side.
      norm; repeat split; (reflexivity || lia).
Qed.

Lemma state_ok_handler (e : edge) (m : mcu) :
  state_ok m -> state_ok (fst (handler e m)).
Proof.
  destruct e as [pins|]; [apply state_ok_M1 | apply state_ok_M0].
Qed.

Theorem reachable_state_ok (m : mcu) : reachable m -> state_ok m.
Proof.
  induction 1 as [|m e _ IH]; [exact state_ok_boot | apply state_ok_handler, IH].
Qed.

Corollary reachable_hw_consistent (m : mcu) :
  reachable m -> hw_consistent m = true.
Proof. intros Hm. apply reachable_state_ok in Hm. apply Hm. Qed.

Lemma reachable_run (es : list edge) (m : mcu) :
  reachable m -> reachable (fst (run es m)).
Proof.
  revert m. induction es as [|e es IH]; intros m Hm; [exact Hm|].
  cbn [run]. cbv [seq]. cbn [fst]. apply IH. constructor. exact Hm.
Qed.

(** ** How far a session can take the address register *)

(** One clock edge of a session, as seen on the bit cursor and the address
    register. *)

Lemma session_clock (m : mcu) :
  readDataActive (tms6100 m) = true ->
  0 <= currentBit (tms6100 m) <= 7 ->
  let m' := fst (ISR_TMS6100_M0_INT_VECT m) in
  readDataActive (tms6100 m') = true /\
  currentBit (tms6100 m') =
    (if currentBit (tms6100 m) =? 7 then 0 else currentBit (tms6100 m) + 1) /\
  address (tms6100 m') =
    (if currentBit (tms6100 m) =? 7 then u32 (address (tms6100 m) + 1)
     else address (tms6100 m)).
Proof.
  destruct m as [[a bs i v rd k byte inp ba] r].
  fields. intros -> Hk.
  assert (0 <= k < 7 \/ k = 7) as [Hmid | ->] by lia; destruct ba.
  - rewrite (M0_clock_owning_mid (mkMcu _ _)) by side. norm.
    destruct (Z.eqb_spec k 7); [lia|]. repeat split; reflexivity.
  - rewrite (M0_clock_idle_mid (mkMcu _ _)) by side. norm.
    destruct (Z.eqb_spec k 7); [lia|]. repeat split; reflexivity.
  - rewrite (M0_clock_owning_last (mkMcu _ _)) by side. norm.
    repeat split; reflexivity.
  - rewrite (M0_clock_idle_last (mkMcu _ _)) by side. norm.
    repeat split; reflexivity.
Qed.

Lemma run_READ_DATA_succ (n : nat) (m : mcu) :
  fst (run (repeat READ_DATA (S n)) m) =
  fst (run (repeat READ_DATA n) (fst (ISR_TMS6100_M0_INT_VECT m))).
Proof. reflexivity. Qed.

(** Clock edges that stay inside one byte move the cursor only. *)

Lemma session_clocks (n : nat) (m : mcu) :
  readDataActive (tms6100 m) = true ->
  0 <= currentBit (tms6100 m) ->
  currentBit (tms6100 m) + Z.of_nat n <= 7 ->
  let m' := fst (run (repeat READ_DATA n) m) in
  readDataActive (tms6100 m') = true /\
  currentBit (tms6100 m') = currentBit (tms6100 m) + Z.of_nat n /\
  address (tms6100 m') = address (tms6100 m).
Proof.
  revert m. induction n as [|n IH]; intros m Hrd Hk Hn; cbv zeta.
  - cbn [repeat run skip fst]. repeat split; [exact Hrd | lia].
  - rewrite run_READ_DATA_succ.
    destruct (session_clock m Hrd ltac:(lia)) as (Hrd' & Hk' & Ha').
    destruct (Z.eqb_spec (currentBit (tms6100 m)) 7) as [E | NE]; [lia|].
    destruct (IH (fst (ISR_TMS6100_M0_INT_VECT m)) Hrd' ltac:(lia) ltac:(lia))
      as (Hrd2 & Hk2 & Ha2).
    repeat split; [exact Hrd2 | lia | congruence].
Qed.

(** Eight clock edges from the start of a byte: one byte further. *)

Lemma session_byte (m : mcu) :
  readDataActive (tms6100 m) = true ->
  currentBit (tms6100 m) = 0 ->
  let m' := fst (run (repeat READ_DATA 8) m) in
  readDataActive (tms6100 m') = true /\
  currentBit (tms6100 m') = 0 /\
  address (tms6100 m') = u32 (address (tms6100 m) + 1).
Proof.
  intros Hrd Hk. cbv zeta.
  change (repeat READ_DATA 8) with (repeat READ_DATA 7 ++ [READ_DATA]).
  rewrite run_app.
  destruct (session_clocks 7 m Hrd ltac:(lia) ltac:(cbn; lia))
    as (Hrd7 & Hk7 & Ha7).
  rewrite Hk in Hk7. change (0 + Z.of_nat 7) with 7 in Hk7.
  destruct (session_clock (fst (run (repeat READ_DATA 7) m)) Hrd7 ltac:(lia))
    as (Hrd8 & Hk8 & Ha8).
  rewrite Hk7 in Hk8, Ha8. change (7 =? 7) with true in Hk8, Ha8.
  rewrite Ha7 in Ha8.
  change (run [READ_DATA]) with ((handler READ_DATA ;; skip)%stmt).
  cbv [seq skip handler]. cbn [fst].
  repeat split; assumption.
Qed.

(** [n] whole bytes: the address register has moved by [n], modulo 2^32. *)

Lemma session_bytes (n : nat) (m : mcu) :
  readDataActive (tms6100 m) = true ->
  currentBit (tms6100 m) = 0 ->
  0 <= address (tms6100 m) < 4294967296 ->
  let m' := fst (run (concat (repeat (repeat READ_DATA 8) n)) m) in
  readDataActive (tms6100 m') = true /\
  currentBit (tms6100 m') = 0 /\
  address (tms6100 m') = u32 (address (tms6100 m) + Z.of_nat n).
Proof.
  revert m. induction n as [|n IH]; intros m Hrd Hk Ha; cbv zeta.
  - cbn [repeat concat run skip fst]. rewrite Z.add_0_r, u32_small by exact Ha.
    repeat split; assumption.
  - change (concat (repeat (repeat READ_DATA 8) (S n)))
      with (repeat READ_DATA 8 ++ concat (repeat (repeat READ_DATA 8) n)).
    rewrite run_app.
    destruct (session_byte m Hrd Hk) as (Hrd1 & Hk1 & Ha1).
    destruct (IH (fst (run (repeat READ_DATA 8) m)) Hrd1 Hk1)
      as (Hrd2 & Hk2 & Ha2).
    { rewrite Ha1. apply u32_range. }
    repeat split; [exact Hrd2 | exact Hk2 |].
    rewrite Ha2, Ha1. unfold u32. rewrite Zplus_mod_idemp_l.
    f_equal. lia.
Qed.

(** So a session that is left running reaches the top of the 32-bit
    register: boot, load 0x3FFFF, start, then clock out bytes. *)

Lemma address_top_after (n : nat) :
  Z.of_nat n = 4294705152 ->
  exists m : mcu,
    reachable m /\
    readDataActive (tms6100 m) = true /\
    currentBit (tms6100 m) = 7 /\
    address (tms6100 m) = 4294967295.
Proof.
  intros Hn.
  pose (F := mkAddressPins true true true true).
  pose (T := mkAddressPins true true false false).
  pose (m0 := fst (run [LOAD_ADDRESS F; LOAD_ADDRESS F; LOAD_ADDRESS F;
                        LOAD_ADDRESS F; LOAD_ADDRESS T; READ_DATA] boot)).
  assert (readDataActive (tms6100 m0) = true /\
          currentBit (tms6100 m0) = 0 /\
          address (tms6100 m0) = 262143) as (Hrd0 & Hk0 & Ha0).
  { subst m0.
    change [LOAD_ADDRESS F; LOAD_ADDRESS F; LOAD_ADDRESS F; LOAD_ADDRESS F;
            LOAD_ADDRESS T; READ_DATA]
      with ([LOAD_ADDRESS F; LOAD_ADDRESS F; LOAD_ADDRESS F; LOAD_ADDRESS F;
             LOAD_ADDRESS T] ++ [READ_DATA]).
    rewrite run_app.
    change (fst (run [LOAD_ADDRESS F; LOAD_ADDRESS F; LOAD_ADDRESS F;
                      LOAD_ADDRESS F; LOAD_ADDRESS T] boot))
      with (mkMcu (mkTms6100State 262143 15 0 true false 0 0 true false)
                  (mkAvrRegisters false false true false false true
                                  true false false 0)).
    unroll. rewrite (M0_start_pulse (mkMcu _ _)) by side.
    repeat split; reflexivity. }
  destruct (session_bytes n m0 Hrd0 Hk0 ltac:(lia)) as (Hrd1 & Hk1 & Ha1).
  set (m1 := fst (run (concat (repeat (repeat READ_DATA 8) n)) m0)) in *.
  destruct (session_clocks 7 m1 Hrd1 ltac:(lia) ltac:(cbn; lia))
    as (Hrd2 & Hk2 & Ha2).
  exists (fst (run (repeat READ_DATA 7) m1)).
  split; [|split; [exact Hrd2 | split]].
  - apply reachable_run. apply reachable_run. apply reachable_run.
    apply reachable_boot.
  - rewrite Hk2, Hk1. reflexivity.
  - rewrite Ha2, Ha1, Ha0, Hn. reflexivity.
Qed.

(** There the next clock edge completes a byte and takes the register from
    0xFFFFFFFF to 0. *)

Theorem address_top_reachable :
  exists m : mcu,
    reachable m /\
    readDataActive (tms6100 m) = true /\
    currentBit (tms6100 m) = 7 /\
    address (tms6100 m) = 0xFFFFFFFF /\
    address (tms6100 (fst (handler READ_DATA m))) = 0.
Proof.
  destruct (address_top_after (Z.to_nat 4294705152)) as (m & Hm & Hrd & Hk & Ha).
  { apply Z2Nat.id. lia. }
  exists m. repeat split; try assumption.
  destruct (session_clock m Hrd ltac:(lia)) as (_ & _ & Ha').
  cbv [handler]. rewrite Ha', Hk, Ha. reflexivity.
Qed.

(** ** Claims *)

(** C1.  Five LOAD ADDRESS edges carrying the nibbles n0..n4, taken from a
    state whose nibble pointer is 0, leave the address register equal to
    n0 | n1<<4 | n2<<8 | n3<<12 | n4<<16 masked to its low 18 bits, the
    address valid, the nibble pointer back at 0, and bankSelectNumber equal
    to bits 14..17 of the unmasked accumulation. *)
Theorem load_address_five_nibbles
  (m : mcu) (p0 p1 p2 p3 p4 : addressPins) :
  loadAddressNibble (tms6100 m) = 0 ->
  let acc :=
    Z.lor (Z.lor (Z.lor (Z.lor (addressNibble p0)
                               (Z.shiftl (addressNibble p1) 4))
                        (Z.shiftl (addressNibble p2) 8))
                 (Z.shiftl (addressNibble p3) 12))
          (Z.shiftl (addressNibble p4) 16) in
  let m' := fst (run [LOAD_ADDRESS p0; LOAD_ADDRESS p1; LOAD_ADDRESS p2;
                      LOAD_ADDRESS p3; LOAD_ADDRESS p4] m) in
  address (tms6100 m') = Z.land acc 0x3FFFF /\
  validAddressLoadedFlag (tms6100 m') = true /\
  loadAddressNibble (tms6100 m') = 0 /\
  bankSelectNumber (tms6100 m') = Z.land (Z.shiftr acc 14) 0xF.
Proof.
  intros Hi acc m'.
  destruct (run_five_loads m p0 p1 p2 p3 p4 Hi) as (Ha & Hv & Hn & Hb & _).
  fold acc in Ha, Hb. fold m' in Ha, Hv, Hn, Hb.
  rewrite <- bank_of_bits. repeat split; assumption.
Qed.

(** C2.  Whatever the state of a read session (any bit cursor, any address),
    one LOAD ADDRESS edge leaves readDataActive and bankActiveFlag false and
    ADD8 released to input, and drives nothing on the way.  The state is any
    state in which the firmware's direction flag mirrors the DDR bit, as
    it is in every state the firmware reaches ([reachable_state_ok]). *)
Theorem load_address_cancels_read (pins : addressPins) (m : mcu) :
  hw_consistent m = true ->
  let r := handler (LOAD_ADDRESS pins) m in
  readDataActive (tms6100 (fst r)) = false /\
  bankActiveFlag (tms6100 (fst r)) = false /\
  add8InputFlag (tms6100 (fst r)) = true /\
  ADD8_line (fst r) = Released /\
  driven_levels (ADD8_DDR (regs m)) (snd r) = [].
Proof.
  intros Hc r. subst r. cbv [handler].
  destruct (M1_cancel pins m) as (Hrd & Hba & Hin & Hddr & Hlog & _).
  repeat split; try assumption.
  - unfold ADD8_line. rewrite Hddr.
    destruct m as [s [ddr port i1 i0 fl en d0 d1 d2 sp]].
    destruct s as [a bs i v rd k byte inp ba].
    fields. destruct inp, ddr; try reflexivity; cbv in Hc; discriminate Hc.
  - rewrite Hlog. destruct (add8InputFlag (tms6100 m)); reflexivity.
Qed.

(** C3.  From a state with a valid address in this device's bank, the start
    pulse fetches the byte at the address's offset, and the 8 clock edges
    after it put bits 0 to 7 of that byte on ADD8 in that order, least
    significant first; the first clocked bit is bit 0.  The state is any
    state outside a session in which the direction flag mirrors the DDR
    bit. *)
Theorem read_session_emits_byte (m : mcu) :
  hw_consistent m = true ->
  readDataActive (tms6100 m) = false ->
  validAddressLoadedFlag (tms6100 m) = true ->
  bank_of (address (tms6100 m)) = PHROM_BANK ->
  let byte := pgm_read_byte (offset_of (address (tms6100 m))) in
  let m1 := fst (handler READ_DATA m) in
  currentByte (tms6100 m1) = byte /\
  observe (repeat READ_DATA 8) m1 = map Driven (bits_lsb_first byte) /\
  driven_levels (ADD8_DDR (regs m1)) (snd (run (repeat READ_DATA 8) m1)) =
    bits_lsb_first byte /\
  ADD8_line (fst (handler READ_DATA m1)) = Driven (Z.testbit byte 0).
Proof.
  intros Hc Hrd Hv Hbank byte m1.
  destruct (session_first_byte m Hc Hrd Hv Hbank) as (H1 & _ & _ & H3 & H4 & H5).
  repeat split; assumption.
Qed.

(** C4.  Outside a session and with no valid address, a READ DATA edge
    writes neither latch of ADD8 (no drive, no direction change), leaves
    every register as it was, and sets address and the nibble pointer to
    0. *)
Theorem dummy_read_resets (m : mcu) :
  readDataActive (tms6100 m) = false ->
  validAddressLoadedFlag (tms6100 m) = false ->
  let r := handler READ_DATA m in
  snd r = [] /\
  regs (fst r) = regs m /\
  ADD8_line (fst r) = ADD8_line m /\
  address (tms6100 (fst r)) = 0 /\
  loadAddressNibble (tms6100 (fst r)) = 0.
Proof.
  intros Hrd Hv r. subst r. cbv [handler].
  rewrite (M0_dummy_read m Hrd Hv).
  repeat split; reflexivity.
Qed.

(** C5, as the code has it.  In a session whose current byte is this
    device's, the clock edge that puts out the 8th bit adds 1 to address (in
    the 32-bit register); if the new address lies in another bank,
    bankActiveFlag becomes false within that edge, while ADD8 goes on
    driving the 8th bit until the next clock edge, which releases it to
    input and drives nothing. *)
Theorem byte_end_crossing_bank (m : mcu) :
  hw_consistent m = true ->
  readDataActive (tms6100 m) = true ->
  bankActiveFlag (tms6100 m) = true ->
  currentBit (tms6100 m) = 7 ->
  let m' := fst (handler READ_DATA m) in
  address (tms6100 m') = u32 (address (tms6100 m) + 1) /\
  (0 <= address (tms6100 m) < 4294967295 ->
   address (tms6100 m') = address (tms6100 m) + 1) /\
  ADD8_line m' = Driven (Z.testbit (currentByte (tms6100 m)) 7) /\
  (bank_of (address (tms6100 m')) <> PHROM_BANK ->
   bankActiveFlag (tms6100 m') = false /\
   currentByte (tms6100 m') = 0xFF /\
   snd (handler READ_DATA m') = [DDR_write false; PORT_write false] /\
   ADD8_line (fst (handler READ_DATA m')) = Released).
Proof.
  destruct m as [[a bs i v rd k byte inp ba] [ddr port i1 i0 fl en d0 d1 d2 sp]].
  intros Hc Hrd Hba Hk. cbn [tms6100 readDataActive bankActiveFlag currentBit] in *.
  subst rd ba k.
  assert (inp = negb ddr) as ->
    by (destruct inp, ddr; try reflexivity; cbv in Hc; discriminate Hc).
  clear Hc. cbv [handler].
  rewrite (M0_clock_owning_last (mkMcu _ _)) by side.
  cbv zeta. fields.
  destruct (bank_of (u32 (a + 1)) =? PHROM_BANK) eqn:Hown.
  - apply Z.eqb_eq in Hown.
    destruct ddr; norm; (split; [reflexivity|]);
      (split; [intros Ha; apply u32_small; lia|]);
      (split; [reflexivity|]); intros Hne; contradiction.
  - destruct ddr; norm; (split; [reflexivity|]);
      (split; [intros Ha; apply u32_small; lia|]);
      (split; [reflexivity|]); intros _;
      rewrite (M0_clock_idle_mid (mkMcu _ _)) by side;
      norm; repeat split; reflexivity.
Qed.

(** C6.  With a valid address whose bank is not this device's, the start
    pulse sets bankActiveFlag false and currentByte 0xFF and leaves ADD8
    released; none of the following 8 clock edges writes a latch of ADD8, so
    the line stays released throughout. *)
Theorem read_session_foreign_bank (m : mcu) :
  hw_consistent m = true ->
  readDataActive (tms6100 m) = false ->
  validAddressLoadedFlag (tms6100 m) = true ->
  bank_of (address (tms6100 m)) <> PHROM_BANK ->
  let start := handler READ_DATA m in
  let m1 := fst start in
  bankActiveFlag (tms6100 m1) = false /\
  currentByte (tms6100 m1) = 0xFF /\
  ADD8_line m1 = Released /\
  snd start = [] /\
  snd (run (repeat READ_DATA 8) m1) = [] /\
  observe (repeat READ_DATA 8) m1 = repeat Released 8.
Proof.
  destruct m as [[a bs i v rd k b0 inp ba] [ddr port i1 i0 fl en d0 d1 d2 sp]].
  fields. intros Hc -> -> Hbank.
  destruct inp, ddr; try (cbv in Hc; discriminate Hc). clear Hc.
  apply Z.eqb_neq in Hbank.
  unroll.
  rewrite (M0_start_pulse (mkMcu _ _)) by side.
  fields. rewrite Hbank. norm.
  do 7 pulse M0_clock_idle_mid.
  pulse M0_clock_idle_last.
  repeat split; reflexivity.
Qed.

(** C7, as the code has it.  The clock edge that completes a byte leaves
    address equal to the previous address plus 1 modulo 2^32, the width of
    the register, with no truncation to 18 bits: from 0x3FFFF it goes to
    0x40000 and keeps growing.  What every other run of a handler does to
    address is given as well, so that the list of operations is complete:
    the other clock edges of a session and the start pulse leave it alone,
    the dummy read sets it to 0, the first nibble of a load overwrites it
    with the nibble, the second to fourth nibbles only OR bits into it, and
    the one operation that applies the 18-bit mask is the fifth nibble of a
    LOAD ADDRESS sequence. *)
Theorem byte_end_address_not_masked (m : mcu) :
  readDataActive (tms6100 m) = true ->
  currentBit (tms6100 m) = 7 ->
  let a := address (tms6100 m) in
  let a' := address (tms6100 (fst (handler READ_DATA m))) in
  a' = (a + 1) mod 2 ^ 32 /\
  (0 <= a < 2 ^ 32 - 1 -> a' = a + 1) /\
  (0x3FFFF <= a < 2 ^ 32 - 1 -> 0x3FFFF < a') /\
  (a = 2 ^ 32 - 1 -> a' = 0) /\
  (forall n : mcu,
     readDataActive (tms6100 n) = true ->
     0 <= currentBit (tms6100 n) < 7 ->
     address (tms6100 (fst (handler READ_DATA n))) = address (tms6100 n)) /\
  (forall (pins : addressPins) (n : mcu),
     1 <= loadAddressNibble (tms6100 n) <= 3 ->
     address (tms6100 (fst (handler (LOAD_ADDRESS pins) n))) =
     Z.lor (address (tms6100 n))
           (Z.shiftl (addressNibble pins)
                     (4 * loadAddressNibble (tms6100 n)))) /\
  (forall (pins : addressPins) (n : mcu),
     loadAddressNibble (tms6100 n) = 4 ->
     let b := address (tms6100 (fst (handler (LOAD_ADDRESS pins) n))) in
     b = Z.land (Z.lor (address (tms6100 n))
                       (Z.shiftl (addressNibble pins) 16)) 0x3FFFF /\
     0 <= b <= 0x3FFFF) /\
  (forall n : mcu,
     readDataActive (tms6100 n) = false ->
     validAddressLoadedFlag (tms6100 n) = true ->
     address (tms6100 (fst (handler READ_DATA n))) = address (tms6100 n)) /\
  (forall n : mcu,
     readDataActive (tms6100 n) = false ->
     validAddressLoadedFlag (tms6100 n) = false ->
     address (tms6100 (fst (handler READ_DATA n))) = 0) /\
  (forall (pins : addressPins) (n : mcu),
     loadAddressNibble (tms6100 n) = 0 ->
     address (tms6100 (fst (handler (LOAD_ADDRESS pins) n))) =
     addressNibble pins).
Proof.
  intros Hrd Hk a a'.
  assert (a' = u32 (a + 1)) as Ha'.
  { subst a a'. cbv [handler].
    destruct (bankActiveFlag (tms6100 m)) eqn:Hba.
    - rewrite (M0_clock_owning_last m Hrd Hba Hk). reflexivity.
    - rewrite (M0_clock_idle_last m Hrd Hba Hk). reflexivity. }
  assert (0 <= a < 2 ^ 32 - 1 -> a' = a + 1) as Hsmall.
  { intros Hr. rewrite Ha'. apply u32_small. change (2 ^ 32) with 4294967296 in Hr. lia. }
  split; [exact Ha'|]. split; [exact Hsmall|].
  split; [intros Hr; rewrite Hsmall; lia|].
  split; [intros Hr; rewrite Ha', Hr; reflexivity|].
  split.
  - intros n Hn Hkn. cbv [handler].
    destruct (bankActiveFlag (tms6100 n)) eqn:Hba.
    + rewrite (M0_clock_owning_mid n Hn Hba Hkn). reflexivity.
    + rewrite (M0_clock_idle_mid n Hn Hba Hkn). reflexivity.
  - split.
    { intros pins n Hn. cbv [handler].
      destruct (M1_nibble_pointer pins n) as (_ & _ & Haddr & _);
        [unfold nibble_pointer_ok; lia|].
      rewrite Haddr. cbv zeta.
      destruct (Z.eqb_spec (loadAddressNibble (tms6100 n)) 0); [lia|].
      destruct (Z.eqb_spec (loadAddressNibble (tms6100 n)) 4); [lia|].
      rewrite u32_nibble_shift by (pose proof (addressNibble_range pins); lia).
      reflexivity. }
    split.
    { intros pins n Hn b.
      assert (b = Z.land (Z.lor (address (tms6100 n))
                                (Z.shiftl (addressNibble pins) 16)) 0x3FFFF)
        as Hb.
      { subst b. cbv [handler].
        destruct (M1_nibble_pointer pins n) as (_ & _ & Haddr & _);
          [unfold nibble_pointer_ok; lia|].
        rewrite Haddr, Hn. cbv zeta.
        change (4 =? 4) with true. change (4 =? 0) with false. cbv iota.
        change (4 * 4) with 16.
        rewrite u32_nibble_shift
          by (pose proof (addressNibble_range pins); lia).
        reflexivity. }
      split; [exact Hb|]. rewrite Hb.
      pose proof (land_mask_range
                    (Z.lor (address (tms6100 n))
                           (Z.shiftl (addressNibble pins) 16))
                    18 ltac:(lia)) as Hm.
      change (Z.ones 18) with 0x3FFFF in Hm.
      change (2 ^ 18) with 262144 in Hm.
      lia. }
    split.
    { intros n Hn Hv. cbv [handler].
      rewrite (M0_start_pulse n Hn Hv). reflexivity. }
    split.
    { intros n Hn Hv. cbv [handler].
      rewrite (M0_dummy_read n Hn Hv). reflexivity. }
    intros pins n Hn. cbv [handler].
    destruct (M1_nibble_pointer pins n) as (_ & _ & Haddr & _);
      [unfold nibble_pointer_ok; lia|].
    rewrite Haddr, Hn. cbv zeta.
    change (0 =? 0) with true. change (0 =? 4) with false. cbv iota.
    change (4 * 0) with 0.
    rewrite u32_nibble_shift by (pose proof (addressNibble_range pins); lia).
    rewrite Z.shiftl_0_r. apply Z.lor_0_l.
Qed.

(** C9.  The start pulse writes neither latch of ADD8: direction and level
    stay as they were.  In the struct it sets readDataActive, fetches
    currentByte, resets currentBit and sets bankActiveFlag, and nothing
    else; among the registers it touches the M0 edge sense and two debug
    outputs only.  When the bank is this device's, the first clock edge
    after it is the one that switches ADD8 to output and puts bit 0 on
    it. *)
Theorem start_pulse_frame (m : mcu) :
  readDataActive (tms6100 m) = false ->
  validAddressLoadedFlag (tms6100 m) = true ->
  let r := handler READ_DATA m in
  let s := tms6100 m in
  let s' := tms6100 (fst r) in
  let own := bank_of (address s) =? PHROM_BANK in
  snd r = [] /\
  ADD8_DDR (regs (fst r)) = ADD8_DDR (regs m) /\
  ADD8_PORT (regs (fst r)) = ADD8_PORT (regs m) /\
  ADD8_line (fst r) = ADD8_line m /\
  regs (fst r) =
    with_M0_ISC0 true
      (with_M0_ISC1 true
         (with_DEBUG2_PORT own (with_DEBUG1_PORT true (regs m)))) /\
  s' = mkTms6100State (address s) (bankSelectNumber s) (loadAddressNibble s)
         (validAddressLoadedFlag s) true 0
         (if own then pgm_read_byte (offset_of (address s)) else 0xFF)
         (add8InputFlag s) own /\
  (hw_consistent m = true -> own = true ->
   snd (handler READ_DATA (fst r)) =
     [DDR_write true; PORT_write (Z.testbit (currentByte s') 0)] /\
   ADD8_line (fst (handler READ_DATA (fst r))) =
     Driven (Z.testbit (pgm_read_byte (offset_of (address s))) 0)).
Proof.
  destruct m as [[a bs i v rd k b0 inp ba] [ddr port i1 i0 fl en d0 d1 d2 sp]].
  fields. intros -> ->. cbv [handler].
  rewrite (M0_start_pulse (mkMcu _ _)) by side.
  fields. norm.
  do 6 (split; [reflexivity|]).
  intros Hc Hown. rewrite Hown.
  destruct inp, ddr; try (cbv in Hc; discriminate Hc).
  pulse M0_clock_owning_mid. split; reflexivity.
Qed.

(** C10.  The nibble pointer is in 0..4 after boot, and both handlers keep
    it there: a LOAD ADDRESS edge adds 1 to it and takes it from 4 straight
    back to 0, a READ DATA edge leaves it alone except that the dummy read
    sets it to 0.  So it is in 0..4 after every run from boot. *)
Theorem nibble_pointer_invariant :
  nibble_pointer_ok boot /\
  (forall (e : edge) (m : mcu),
     nibble_pointer_ok m -> nibble_pointer_ok (fst (handler e m))) /\
  (forall (pins : addressPins) (m : mcu),
     nibble_pointer_ok m ->
     loadAddressNibble (tms6100 (fst (handler (LOAD_ADDRESS pins) m))) =
     if loadAddressNibble (tms6100 m) =? 4 then 0
     else loadAddressNibble (tms6100 m) + 1) /\
  (forall m : mcu,
     readDataActive (tms6100 m) = false ->
     validAddressLoadedFlag (tms6100 m) = false ->
     loadAddressNibble (tms6100 (fst (handler READ_DATA m))) = 0) /\
  (forall es : list edge, nibble_pointer_ok (fst (run es boot))).
Proof.
  assert (nibble_pointer_ok boot) as Hboot by (cbv; intuition discriminate).
  assert (forall (e : edge) (m : mcu),
            nibble_pointer_ok m -> nibble_pointer_ok (fst (handler e m)))
    as Hstep.
  { intros [pins|] m Hm; unfold nibble_pointer_ok in *; cbv [handler].
    - destruct (M1_nibble_pointer pins m Hm) as (Hi & _). rewrite Hi.
      destruct (Z.eqb_spec (loadAddressNibble (tms6100 m)) 4); lia.
    - rewrite M0_nibble_pointer.
      destruct (negb _ && negb _); lia. }
  split; [exact Hboot|]. split; [exact Hstep|]. split; [|split].
  - intros pins m Hm. cbv [handler].
    destruct (M1_nibble_pointer pins m Hm) as (Hi & _). exact Hi.
  - intros m Hrd Hv. cbv [handler]. rewrite M0_nibble_pointer, Hrd, Hv.
    reflexivity.
  - intros es. generalize boot Hboot. induction es as [|e es IH]; intros m Hm.
    + exact Hm.
    + cbn [run]. cbv [seq]. cbn [fst]. apply IH. apply Hstep. exact Hm.
Qed.

(** ** The handlers in full *)

(** A LOAD ADDRESS edge with the nibble pointer in range: the whole
    resulting machine and the writes made. *)

Lemma M1_full (pins : addressPins) (m : mcu) :
  nibble_pointer_ok m ->
  let s := tms6100 m in
  let r := regs m in
  let i := loadAddressNibble s in
  let acc := Z.lor (if i =? 0 then 0 else address s)
                   (u32 (Z.shiftl (addressNibble pins) (4 * i))) in
  ISR_TMS6100_M1_INT_VECT pins m =
  (mkMcu
     (mkTms6100State
        (if i =? 4 then Z.land acc 0x3FFFF else acc)
        (if i =? 4 then bank_of acc else bankSelectNumber s)
        (if i =? 4 then 0 else i + 1)
        (i =? 4) false (currentBit s) (currentByte s) true false)
     (mkAvrRegisters
        (if add8InputFlag s then ADD8_DDR r else false)
        (if add8InputFlag s then ADD8_PORT r else false)
        true false false true (i =? 4) false false 0),
   if add8InputFlag s then [] else [DDR_write false; PORT_write false]).
Proof.
  destruct m as [[a bs i v rd k byte inp ba] [ddr port i1 i0 fl en d0 d1 d2 sp]].
  unfold nibble_pointer_ok. fields. intros Hi.
  nibble_pointer_cases i Hi; destruct inp; exec_M1; reflexivity.
Qed.

(** Bank and offset read the low 18 bits of an address only. *)

Lemma bank_of_mask18 (a : Z) : bank_of (Z.land a 0x3FFFF) = bank_of a.
Proof. unfold bank_of. rewrite <- Z.land_assoc. reflexivity. Qed.

Lemma offset_of_mask18 (a : Z) : offset_of (Z.land a 0x3FFFF) = offset_of a.
Proof. unfold offset_of. rewrite <- Z.land_assoc. reflexivity. Qed.

Lemma mask18_range (a : Z) : 0 <= Z.land a 0x3FFFF <= 0x3FFFF.
Proof.
  pose proof (land_mask_range a 18 ltac:(lia)) as H.
  change (Z.ones 18) with 0x3FFFF in H. change (2 ^ 18) with 262144 in H. lia.
Qed.

(** ** The invariant of the firmware *)

Lemma firmware_ok_boot : firmware_ok boot.
Proof.
  split; [exact state_ok_boot|].
  cbv. intuition (try discriminate; try reflexivity).
Qed.

Ltac fields_all :=
  cbn [tms6100 regs
       address bankSelectNumber loadAddressNibble validAddressLoadedFlag
       readDataActive currentBit currentByte add8InputFlag bankActiveFlag
       ADD8_DDR ADD8_PORT M0_ISC1 M0_ISC0 M0_INTF M0_INT
       DEBUG0_PORT DEBUG1_PORT DEBUG2_PORT SPCR] in *.

Ltac close_goal :=
  first [ reflexivity | assumption | discriminate | lia
        | apply bank_of_range | apply mask18_range | congruence ].

Lemma firmware_ok_M1 (pins : addressPins) (m : mcu) :
  firmware_ok m -> firmware_ok (fst (ISR_TMS6100_M1_INT_VECT pins m)).
Proof.
  intros (Hs & Hr & Hd & Hb & Hf).
  split; [apply state_ok_M1; exact Hs|].
  destruct Hs as (Hi & _ & _ & _ & Hc).
  rewrite (M1_full pins m Hi). cbv zeta. cbn [fst].
  destruct m as [[a bs i v rd k byte inp ba] [ddr port i1 i0 fl en d0 d1 d2 sp]].
  unfold registers_mirror, debug_mirror, bus_discipline, session_flags_ok in *.
  fields_all.
  destruct Hb as (Hb1 & Hb2). destruct Hf as (_ & _ & _ & Hbs).
  assert (inp = negb ddr) as ->
    by (destruct inp, ddr, rd; cbv in Hc; try discriminate Hc; reflexivity).
  destruct ddr; cbn [negb].
  - repeat split; intros; try close_goal;
      destruct (i =? 4); try close_goal;
      rewrite bank_of_mask18; reflexivity.
  - specialize (Hb2 eq_refl). subst port.
    repeat split; intros; try close_goal;
      destruct (i =? 4); try close_goal;
      rewrite bank_of_mask18; reflexivity.
Qed.

Lemma firmware_ok_M0 (m : mcu) :
  firmware_ok m -> firmware_ok (fst (ISR_TMS6100_M0_INT_VECT m)).
Proof.
  intros (Hs & Hr & Hd & Hb & Hf).
  split; [apply state_ok_M0; exact Hs|].
  destruct Hs as (_ & Hk & _ & _ & Hc).
  destruct m as [[a bs i v rd k byte inp ba] [ddr port i1 i0 fl en d0 d1 d2 sp]].
  unfold registers_mirror, debug_mirror, bus_discipline, session_flags_ok in *.
  fields_all.
  destruct Hr as (-> & -> & -> & ->). destruct Hd as (-> & -> & ->).
  destruct Hb as (Hb1 & Hb2). destruct Hf as (Hf1 & Hf2 & Hf3 & Hbs).
  assert (inp = negb ddr) as ->
    by (destruct inp, ddr, rd; cbv in Hc; try discriminate Hc; reflexivity).
  clear Hc.
  destruct rd.
  - specialize (Hf1 eq_refl). subst v. clear Hf2 Hf3 Hb1.
    assert (0 <= k < 7 \/ k = 7) as [Hmid | ->] by lia; destruct ba.
    + rewrite (M0_clock_owning_mid (mkMcu _ _)) by side.
      destruct ddr; norm; repeat split; intros; close_goal.
    + rewrite (M0_clock_idle_mid (mkMcu _ _)) by side.
      destruct ddr; norm; repeat split; intros; try close_goal;
        apply Hb2; reflexivity.
    + rewrite (M0_clock_owning_last (mkMcu _ _)) by side. fields.
      destruct (bank_of (u32 (a + 1)) =? PHROM_BANK);
        destruct ddr; norm; repeat split; intros; close_goal.
    + rewrite (M0_clock_idle_last (mkMcu _ _)) by side. fields.
      destruct (bank_of (u32 (a + 1)) =? PHROM_BANK);
        destruct ddr; norm; repeat split; intros; try close_goal;
        apply Hb2; reflexivity.
  - destruct ddr; [specialize (Hb1 eq_refl); discriminate Hb1|].
    specialize (Hb2 eq_refl). subst port.
    assert (ba = false) as ->
      by (destruct ba; [specialize (Hf2 eq_refl); discriminate Hf2 | reflexivity]).
    destruct v.
    + rewrite (M0_start_pulse (mkMcu _ _)) by side. fields.
      destruct (bank_of a =? PHROM_BANK);
        norm; repeat split; intros; close_goal.
    + rewrite (M0_dummy_read (mkMcu _ _)) by side.
      norm; repeat split; intros; close_goal.
Qed.

Lemma firmware_ok_handler (e : edge) (m : mcu) :
  firmware_ok m -> firmware_ok (fst (handler e m)).
Proof.
  destruct e as [pins|]; [apply firmware_ok_M1 | apply firmware_ok_M0].
Qed.

Lemma firmware_ok_run (es : list edge) (m : mcu) :
  firmware_ok m -> firmware_ok (fst (run es m)).
Proof.
  revert m. induction es as [|e es IH]; intros m Hm; [exact Hm|].
  cbn [run]. cbv [seq]. cbn [fst]. apply IH. apply firmware_ok_handler.
  exact Hm.
Qed.

Lemma state_ok_run (es : list edge) (m : mcu) :
  state_ok m -> state_ok (fst (run es m)).
Proof.
  revert m. induction es as [|e es IH]; intros m Hm; [exact Hm|].
  cbn [run]. cbv [seq]. cbn [fst]. apply IH. apply state_ok_handler.
  exact Hm.
Qed.

Lemma state_ok_main (m0 : mcu) : state_ok (fst (main m0)).
Proof.
  destruct m0 as [[a bs i v rd k byte inp ba] r].
  cbv. intuition discriminate.
Qed.

(** ** Further properties *)

(** X1.  Whatever the machine holds when [main] starts, its set-up leaves a
    well-formed state, and every run of edges after it stays well formed:
    the nibble pointer in 0..4, the bit cursor in 0..7 (so the shift
    [1 << currentBit] stays inside a byte), address below 2^32, currentByte
    a byte, and the direction flag in step with the DDR bit of ADD8. *)
Theorem main_then_edges_state_ok (m0 : mcu) (es : list edge) :
  state_ok (fst (run es (fst (main m0)))).
Proof. apply state_ok_run. apply state_ok_main. Qed.

(** X2.  After every run from boot, ADD8 is an output only inside a read
    session, and whenever it is an input its PORT latch is low, so the
    pull-up of the shared line is never switched on. *)
Theorem bus_discipline_always (es : list edge) :
  let m := fst (run es boot) in
  (ADD8_DDR (regs m) = true -> readDataActive (tms6100 m) = true) /\
  (ADD8_DDR (regs m) = false -> ADD8_PORT (regs m) = false).
Proof.
  destruct (firmware_ok_run es boot firmware_ok_boot) as (_ & _ & _ & H & _).
  exact H.
Qed.

(** X3.  After every run from boot the M0 interrupt is enabled and senses
    the rising edge exactly while a read session is active (ISC1 set, ISC0
    equal to readDataActive), and the SPI control register is 0. *)
Theorem m0_sense_tracks_session (es : list edge) :
  let m := fst (run es boot) in
  M0_ISC1 (regs m) = true /\
  M0_ISC0 (regs m) = readDataActive (tms6100 m) /\
  M0_INT (regs m) = true /\
  SPCR (regs m) = 0.
Proof.
  destruct (firmware_ok_run es boot firmware_ok_boot) as (_ & H & _).
  exact H.
Qed.

(** X4.  After every run from boot the three debug outputs show the flags
    they are meant to show: DEBUG0 the valid-address flag, DEBUG1 the
    active session, DEBUG2 the active bank. *)
Theorem debug_outputs_show_flags (es : list edge) :
  let m := fst (run es boot) in
  DEBUG0_PORT (regs m) = validAddressLoadedFlag (tms6100 m) /\
  DEBUG1_PORT (regs m) = readDataActive (tms6100 m) /\
  DEBUG2_PORT (regs m) = bankActiveFlag (tms6100 m).
Proof.
  destruct (firmware_ok_run es boot firmware_ok_boot) as (_ & _ & H & _).
  exact H.
Qed.

(** X5.  After every run from boot: a session is only ever active with a
    valid address, the bank flag is only ever set inside a session,
    bankSelectNumber is a 4-bit value, and while a valid address waits for
    its start pulse the address register is within 18 bits and
    bankSelectNumber is its bank. *)
Theorem session_flags_always (es : list edge) :
  let m := fst (run es boot) in
  (readDataActive (tms6100 m) = true ->
   validAddressLoadedFlag (tms6100 m) = true) /\
  (bankActiveFlag (tms6100 m) = true -> readDataActive (tms6100 m) = true) /\
  (readDataActive (tms6100 m) = false ->
   validAddressLoadedFlag (tms6100 m) = true ->
   (0 <= address (tms6100 m) <= 0x3FFFF) /\
   bankSelectNumber (tms6100 m) = bank_of (address (tms6100 m))) /\
  (0 <= bankSelectNumber (tms6100 m) < 16).
Proof.
  destruct (firmware_ok_run es boot firmware_ok_boot) as (_ & _ & _ & _ & H).
  exact H.
Qed.

(** X6.  The output law of a clock edge.  In a well-formed state inside a
    session the READ DATA handler writes the latches of ADD8 as follows.
    Bank flag set and the pin already an output: the PORT latch gets bit
    [currentBit] of [currentByte].  Bank flag set and the pin an input: the
    DDR bit is set first and the PORT latch written second, so the pin
    drives the level left in the PORT latch before it drives the bit.  Bank
    flag clear and the pin an output: the DDR bit is cleared and then the
    PORT latch, and the line is released from the first write on.  Bank flag
    clear and the pin an input: nothing is written.  When the handler ends
    ADD8 shows the bit if the bank flag was set before the edge, and is
    released if it was not. *)
Theorem clock_edge_output (m : mcu) :
  state_ok m ->
  readDataActive (tms6100 m) = true ->
  let r := handler READ_DATA m in
  let bit :=
    Z.testbit (currentByte (tms6100 m)) (currentBit (tms6100 m)) in
  let ddr := ADD8_DDR (regs m) in
  let port := ADD8_PORT (regs m) in
  ADD8_line (fst r) =
    (if bankActiveFlag (tms6100 m) then Driven bit else Released) /\
  snd r =
    (if bankActiveFlag (tms6100 m)
     then (if ddr then [PORT_write bit]
           else [DDR_write true; PORT_write bit])
     else (if ddr then [DDR_write false; PORT_write false] else [])) /\
  line_trace ddr port (snd r) =
    (if bankActiveFlag (tms6100 m)
     then (if ddr then [Driven bit] else [Driven port; Driven bit])
     else (if ddr then [Released; Released] else [])).
Proof.
  intros (_ & Hk & _ & _ & Hc) Hrd. cbv zeta. cbv [handler].
  destruct m as [[a bs i v rd k byte inp ba] [ddr port i1 i0 fl en d0 d1 d2 sp]].
  fields_all. subst rd.
  assert (inp = negb ddr) as ->
    by (destruct inp, ddr; cbv in Hc; try discriminate Hc; reflexivity).
  clear Hc.
  assert (0 <= k < 7 \/ k = 7) as [Hmid | ->] by lia; destruct ba.
  - rewrite (M0_clock_owning_mid (mkMcu _ _)) by side.
    destruct ddr; norm; cbn [line_trace];
      (split; [reflexivity | split; reflexivity]).
  - rewrite (M0_clock_idle_mid (mkMcu _ _)) by side.
    destruct ddr; norm; cbn [line_trace];
      (split; [reflexivity | split; reflexivity]).
  - rewrite (M0_clock_owning_last (mkMcu _ _)) by side.
    destruct ddr; norm; cbn [line_trace];
      (split; [reflexivity | split; reflexivity]).
  - rewrite (M0_clock_idle_last (mkMcu _ _)) by side.
    destruct ddr; norm; cbn [line_trace];
      (split; [reflexivity | split; reflexivity]).
Qed.

(** ** A session byte by byte *)

Lemma observe_app (es1 es2 : list edge) (m : mcu) :
  observe (es1 ++ es2) m = observe es1 m ++ observe es2 (fst (run es1 m)).
Proof.
  revert m. induction es1 as [|e es1 IH]; intros m; [reflexivity|].
  cbn [app observe run]. cbv [seq]. cbn [fst]. rewrite IH. reflexivity.
Qed.

Lemma start_pulse_byte_start (m : mcu) :
  hw_consistent m = true ->
  readDataActive (tms6100 m) = false ->
  validAddressLoadedFlag (tms6100 m) = true ->
  byte_start (fst (ISR_TMS6100_M0_INT_VECT m)) /\
  address (tms6100 (fst (ISR_TMS6100_M0_INT_VECT m))) = address (tms6100 m).
Proof.
  destruct m as [[a bs i v rd k byte inp ba] [ddr port i1 i0 fl en d0 d1 d2 sp]].
  fields. intros Hc -> ->.
  destruct inp, ddr; try (cbv in Hc; discriminate Hc). clear Hc.
  rewrite (M0_start_pulse (mkMcu _ _)) by side. fields.
  unfold byte_start.
  destruct (bank_of a =? PHROM_BANK) eqn:Hown; norm; rewrite ?Hown;
    repeat split; intros; close_goal.
Qed.

(** The eight clock edges of one byte: what the bus shows, and where they
    leave the session. *)

Lemma byte_start_byte (m : mcu) :
  byte_start m ->
  observe (repeat READ_DATA 8) m = byte_lines (address (tms6100 m)) /\
  byte_start (fst (run (repeat READ_DATA 8) m)) /\
  address (tms6100 (fst (run (repeat READ_DATA 8) m))) =
    u32 (address (tms6100 m) + 1).
Proof.
  destruct m as [[a bs i v rd k byte inp ba] [ddr port i1 i0 fl en d0 d1 d2 sp]].
  unfold byte_start, byte_lines. fields.
  intros (-> & -> & -> & Hbyte & ->).
  destruct (bank_of a =? PHROM_BANK) eqn:Hown.
  - rewrite (Hbyte eq_refl). clear Hbyte.
    generalize (pgm_read_byte (offset_of a)). intros b.
    unroll.
    destruct ddr; cbn [negb];
      do 7 pulse M0_clock_owning_mid;
      pulse M0_clock_owning_last;
      destruct (bank_of (u32 (a + 1)) =? PHROM_BANK) eqn:Hnext;
      rewrite ?Hnext; repeat split; intros; close_goal.
  - clear Hbyte. unroll.
    destruct ddr; cbn [negb];
      do 7 pulse M0_clock_idle_mid;
      pulse M0_clock_idle_last;
      destruct (bank_of (u32 (a + 1)) =? PHROM_BANK) eqn:Hnext;
      rewrite ?Hnext; repeat split; intros; close_goal.
Qed.

Lemma session_lines_succ (a : Z) (n : nat) :
  0 <= a < 4294967296 ->
  session_lines a (S n) = byte_lines a ++ session_lines (u32 (a + 1)) n.
Proof.
  intros Ha. unfold session_lines.
  cbn [List.seq map concat]. rewrite <- List.seq_shift, map_map.
  change (Z.of_nat 0) with 0. rewrite Z.add_0_r, (u32_small a Ha).
  f_equal. f_equal. apply map_ext. intros i. f_equal.
  unfold u32. rewrite Zplus_mod_idemp_l. f_equal. lia.
Qed.

Lemma byte_start_bytes (n : nat) (m : mcu) :
  byte_start m ->
  0 <= address (tms6100 m) < 4294967296 ->
  observe (byte_clocks n) m = session_lines (address (tms6100 m)) n /\
  byte_start (fst (run (byte_clocks n) m)) /\
  address (tms6100 (fst (run (byte_clocks n) m))) =
    u32 (address (tms6100 m) + Z.of_nat n).
Proof.
  revert m. induction n as [|n IH]; intros m Hm Ha.
  - unfold byte_clocks, session_lines. cbn [repeat concat observe run skip fst
                                              List.seq map].
    rewrite Z.add_0_r, u32_small by exact Ha.
    split; [reflexivity|]. split; [exact Hm | reflexivity].
  - change (byte_clocks (S n)) with (repeat READ_DATA 8 ++ byte_clocks n).
    rewrite observe_app, run_app, session_lines_succ by exact Ha.
    destruct (byte_start_byte m Hm) as (Hobs & Hnext & Haddr).
    destruct (IH (fst (run (repeat READ_DATA 8) m)) Hnext) as (Hobs' & Hm' & Ha').
    { rewrite Haddr. apply u32_range. }
    rewrite Hobs, Hobs', Ha', Haddr.
    split; [reflexivity|]. split; [exact Hm'|].
    unfold u32. rewrite Zplus_mod_idemp_l. f_equal. lia.
Qed.

(** X7.  What a whole session puts on the bus.  After the start pulse on a
    valid address [a], the levels of ADD8 after each of the following 8n
    clock edges are, byte by byte for the addresses a, a+1, ... (in the
    32-bit register), the eight bits of the PHROM byte at the address's
    offset, least significant first, when bits 14..17 of the address are
    this device's bank, and eight times released when they are not. *)
Theorem session_shows_bytes (m : mcu) (n : nat) :
  hw_consistent m = true ->
  readDataActive (tms6100 m) = false ->
  validAddressLoadedFlag (tms6100 m) = true ->
  0 <= address (tms6100 m) < 4294967296 ->
  observe (byte_clocks n) (fst (handler READ_DATA m)) =
  session_lines (address (tms6100 m)) n.
Proof.
  intros Hc Hrd Hv Ha. cbv [handler].
  destruct (start_pulse_byte_start m Hc Hrd Hv) as (Hstart & Haddr).
  destruct (byte_start_bytes n _ Hstart) as (Hobs & _).
  { rewrite Haddr. exact Ha. }
  rewrite Hobs, Haddr. reflexivity.
Qed.

(** Inside one bank, consecutive addresses keep the bank and step the
    offset. *)

Lemma land_ones_14 (a : Z) : offset_of a = a mod 16384.
Proof. unfold offset_of. change 0x3FFF with (Z.ones 14). apply Z.land_ones. lia. Qed.

Lemma bank_of_div (a : Z) : bank_of a = (a / 16384) mod 16.
Proof.
  rewrite bank_of_bits. change 0xF with (Z.ones 4).
  rewrite Z.land_ones by lia. rewrite Z.shiftr_div_pow2 by lia. reflexivity.
Qed.

Lemma same_bank_step (a i : Z) :
  0 <= i -> offset_of a + i < 16384 ->
  bank_of (a + i) = bank_of a /\ offset_of (a + i) = offset_of a + i.
Proof.
  intros Hi Hlt. rewrite land_ones_14 in Hlt.
  rewrite !bank_of_div, !land_ones_14.
  pose proof (Z.mod_pos_bound a 16384 ltac:(lia)) as Hr.
  pose proof (Z.div_mod a 16384 ltac:(lia)) as Hd.
  assert ((a + i) / 16384 = a / 16384) as ->
    by (symmetry; apply (Z.div_unique _ _ _ (a mod 16384 + i)); lia).
  split; [reflexivity|].
  symmetry. apply (Z.mod_unique _ _ (a / 16384)); lia.
Qed.

Lemma session_lines_in_bank (a : Z) (n : nat) :
  0 <= a <= 0x3FFFF ->
  bank_of a = PHROM_BANK ->
  offset_of a + Z.of_nat n <= 16384 ->
  session_lines a n =
  concat (map (fun i => map Driven
                          (bits_lsb_first
                             (pgm_read_byte (offset_of a + Z.of_nat i))))
              (List.seq 0 n)).
Proof.
  intros Ha Hbank Hn. unfold session_lines. f_equal.
  apply map_ext_in. intros i Hi. apply in_seq in Hi.
  assert (0 <= offset_of a) as Ho0
    by (rewrite land_ones_14; apply Z.mod_pos_bound; lia).
  rewrite u32_small by lia.
  destruct (same_bank_step a (Z.of_nat i)) as (Hb & Ho); [lia | lia |].
  unfold byte_lines. rewrite Hb, Hbank, Z.eqb_refl, Ho. reflexivity.
Qed.

(** X8.  Reading inside one bank returns the PHROM contents.  After the
    start pulse on a valid 18-bit address in this device's bank, with [n]
    bytes left before the end of the bank, the 8n clock edges show on ADD8
    the bytes at offsets o, o+1, ..., o+n-1 of the PHROM, each least
    significant bit first, and the line is never released in between. *)
Theorem session_reads_phrom (m : mcu) (n : nat) :
  hw_consistent m = true ->
  readDataActive (tms6100 m) = false ->
  validAddressLoadedFlag (tms6100 m) = true ->
  0 <= address (tms6100 m) <= 0x3FFFF ->
  bank_of (address (tms6100 m)) = PHROM_BANK ->
  offset_of (address (tms6100 m)) + Z.of_nat n <= 16384 ->
  observe (byte_clocks n) (fst (handler READ_DATA m)) =
  concat (map (fun i => map Driven
                          (bits_lsb_first
                             (pgm_read_byte
                                (offset_of (address (tms6100 m)) +
                                 Z.of_nat i))))
              (List.seq 0 n)).
Proof.
  intros Hc Hrd Hv Ha Hbank Hn. cbv [handler].
  destruct (start_pulse_byte_start m Hc Hrd Hv) as (Hstart & Haddr).
  destruct (byte_start_bytes n _ Hstart) as (Hobs & _).
  { rewrite Haddr. lia. }
  rewrite Hobs, Haddr. apply session_lines_in_bank; assumption.
Qed.

(** ** The bits of address above bit 17 *)

Lemma mask18_succ (a1 a2 : Z) :
  Z.land a1 0x3FFFF = Z.land a2 0x3FFFF ->
  Z.land (u32 (a1 + 1)) 0x3FFFF = Z.land (u32 (a2 + 1)) 0x3FFFF.
Proof.
  change 0x3FFFF with (Z.ones 18). rewrite !Z.land_ones by lia.
  intros H. unfold u32.
  assert (forall x, (x mod 4294967296) mod 2 ^ 18 = x mod 2 ^ 18) as Hm.
  { intros x. change 4294967296 with (2 ^ 18 * 16384).
    rewrite Z.rem_mul_r by lia.
    rewrite (Z.mul_comm (2 ^ 18)), Z.mod_add by lia.
    apply Z.mod_mod. lia. }
  rewrite !Hm. rewrite <- (Zplus_mod_idemp_l a1), H, Zplus_mod_idemp_l.
  reflexivity.
Qed.

Lemma mask18_lor (a1 a2 x : Z) :
  Z.land a1 0x3FFFF = Z.land a2 0x3FFFF ->
  Z.land (Z.lor a1 x) 0x3FFFF = Z.land (Z.lor a2 x) 0x3FFFF.
Proof. intros H. rewrite !Z.land_lor_distr_l, H. reflexivity. Qed.

Lemma mask18_bank (a1 a2 : Z) :
  Z.land a1 0x3FFFF = Z.land a2 0x3FFFF -> bank_of a1 = bank_of a2.
Proof.
  intros H. rewrite <- (bank_of_mask18 a1), <- (bank_of_mask18 a2), H.
  reflexivity.
Qed.

Lemma mask18_offset (a1 a2 : Z) :
  Z.land a1 0x3FFFF = Z.land a2 0x3FFFF -> offset_of a1 = offset_of a2.
Proof.
  intros H. rewrite <- (offset_of_mask18 a1), <- (offset_of_mask18 a2), H.
  reflexivity.
Qed.

Lemma mask18_idem (m : mcu) : mask18 (mask18 m) = mask18 m.
Proof.
  destruct m as [[a bs i v rd k byte inp ba] r]. unfold mask18. norm.
  rewrite <- Z.land_assoc. reflexivity.
Qed.

Lemma state_ok_mask18 (m : mcu) : state_ok m -> state_ok (mask18 m).
Proof.
  destruct m as [[a bs i v rd k byte inp ba] r].
  unfold state_ok, nibble_pointer_ok, hw_consistent, mask18. norm.
  intros (Hi & Hk & Ha & Hb & Hc). pose proof (mask18_range a).
  repeat split; try lia. exact Hc.
Qed.

(** One edge from two machines that differ only above bit 17 of address:
    the same writes, and again machines that differ only there. *)

Lemma mask18_handler (e : edge) (m1 m2 : mcu) :
  state_ok m1 -> state_ok m2 ->
  mask18 m1 = mask18 m2 ->
  snd (handler e m1) = snd (handler e m2) /\
  mask18 (fst (handler e m1)) = mask18 (fst (handler e m2)).
Proof.
  intros (Hi1 & Hk1 & _ & _ & Hc1) (Hi2 & _ & _ & _ & _) Heq.
  destruct m1 as [[a1 bs i v rd k byte inp ba] r].
  destruct m2 as [[a2 bs2 i2 v2 rd2 k2 byte2 inp2 ba2] r2].
  unfold mask18, with_address in Heq. fields_all.
  injection Heq as Ha <- <- <- <- <- <- <- <- <-.
  unfold nibble_pointer_ok in *. fields_all.
  pose proof (mask18_bank _ _ Ha) as Hb.
  pose proof (mask18_offset _ _ Ha) as Ho.
  pose proof (mask18_succ _ _ Ha) as Hn.
  pose proof (mask18_bank _ _ Hn) as Hbn.
  pose proof (mask18_offset _ _ Hn) as Hon.
  destruct e as [pins|]; cbv [handler].
  - rewrite (M1_full pins (mkMcu _ _)) by exact Hi1.
    rewrite (M1_full pins (mkMcu _ r)) by exact Hi2.
    cbv zeta. unfold mask18. norm.
    split; [reflexivity|].
    set (x := u32 (Z.shiftl (addressNibble pins) (4 * i))).
    destruct (i =? 0).
    + reflexivity.
    + pose proof (mask18_lor _ _ x Ha) as Hl.
      pose proof (mask18_bank _ _ Hl) as Hbl.
      destruct (i =? 4); rewrite ?Hl, ?Hbl; reflexivity.
  - destruct rd.
    + assert (0 <= k < 7 \/ k = 7) as [Hmid | ->] by lia; destruct ba.
      * rewrite !(M0_clock_owning_mid (mkMcu _ _)) by side.
        unfold mask18. norm. rewrite Ha. split; reflexivity.
      * rewrite !(M0_clock_idle_mid (mkMcu _ _)) by side.
        unfold mask18. norm. rewrite Ha. split; reflexivity.
      * rewrite !(M0_clock_owning_last (mkMcu _ _)) by side.
        unfold mask18. fields. norm. rewrite Hbn, Hon, Hn. split; reflexivity.
      * rewrite !(M0_clock_idle_last (mkMcu _ _)) by side.
        unfold mask18. fields. norm. rewrite Hbn, Hon, Hn. split; reflexivity.
    + destruct v.
      * rewrite !(M0_start_pulse (mkMcu _ _)) by side.
        unfold mask18. fields. norm. rewrite Hb, Ho, Ha. split; reflexivity.
      * rewrite !(M0_dummy_read (mkMcu _ _)) by side.
        unfold mask18. norm. split; reflexivity.
Qed.

Lemma mask18_line (m : mcu) : ADD8_line (mask18 m) = ADD8_line m.
Proof. reflexivity. Qed.

Lemma mask18_run (es : list edge) (m1 m2 : mcu) :
  state_ok m1 -> state_ok m2 ->
  mask18 m1 = mask18 m2 ->
  snd (run es m1) = snd (run es m2) /\
  observe es m1 = observe es m2 /\
  mask18 (fst (run es m1)) = mask18 (fst (run es m2)).
Proof.
  revert m1 m2. induction es as [|e es IH]; intros m1 m2 H1 H2 Heq.
  - cbn [run skip observe fst snd]. repeat split. exact Heq.
  - destruct (mask18_handler e m1 m2 H1 H2 Heq) as (Hlog & Hnext).
    destruct (IH (fst (handler e m1)) (fst (handler e m2))
                 (state_ok_handler e m1 H1) (state_ok_handler e m2 H2) Hnext)
      as (Hlogs & Hobs & Hfin).
    cbn [run observe]. cbv [seq]. cbv zeta. cbn [fst snd].
    rewrite Hlog, Hlogs, Hobs.
    rewrite <- (mask18_line (fst (handler e m1))), Hnext, mask18_line.
    repeat split. exact Hfin.
Qed.

(** X9.  The bits of address above bit 17 are never seen.  From a
    well-formed state and from the same state with address cut to 18 bits,
    every run of edges makes the same writes to ADD8, shows the same levels
    on the line, and ends in states that differ at most above bit 17 of
    address.  So letting the register grow past 18 bits during a session,
    and wrapping it at 2^32, changes nothing a host can observe. *)
Theorem address_high_bits_unobservable (m : mcu) (es : list edge) :
  state_ok m ->
  snd (run es (mask18 m)) = snd (run es m) /\
  observe es (mask18 m) = observe es m /\
  mask18 (fst (run es (mask18 m))) = mask18 (fst (run es m)).
Proof.
  intros Hm. apply mask18_run.
  - apply state_ok_mask18. exact Hm.
  - exact Hm.
  - apply mask18_idem.
Qed.

(** ** Counting edges *)

Lemma session_clock_frame (m : mcu) :
  readDataActive (tms6100 m) = true ->
  0 <= currentBit (tms6100 m) <= 7 ->
  let m' := fst (ISR_TMS6100_M0_INT_VECT m) in
  validAddressLoadedFlag (tms6100 m') = validAddressLoadedFlag (tms6100 m) /\
  loadAddressNibble (tms6100 m') = loadAddressNibble (tms6100 m) /\
  bankSelectNumber (tms6100 m') = bankSelectNumber (tms6100 m).
Proof.
  destruct m as [[a bs i v rd k byte inp ba] r].
  fields. intros -> Hk.
  assert (0 <= k < 7 \/ k = 7) as [Hmid | ->] by lia; destruct ba.
  - rewrite (M0_clock_owning_mid (mkMcu _ _)) by side. norm.
    repeat split; reflexivity.
  - rewrite (M0_clock_idle_mid (mkMcu _ _)) by side. norm.
    repeat split; reflexivity.
  - rewrite (M0_clock_owning_last (mkMcu _ _)) by side. norm.
    repeat split; reflexivity.
  - rewrite (M0_clock_idle_last (mkMcu _ _)) by side. norm.
    repeat split; reflexivity.
Qed.

(** X10.  Clock edges in closed form.  From a session with the bit cursor
    at k and the address register at a, n further READ DATA edges leave the
    session active, the cursor at (k + n) mod 8 and the address register at
    a + (k + n) / 8 modulo 2^32; they never end the session and never touch
    the valid flag, the nibble pointer or bankSelectNumber. *)
Theorem clock_edges_closed_form (n : nat) (m : mcu) :
  readDataActive (tms6100 m) = true ->
  0 <= currentBit (tms6100 m) <= 7 ->
  0 <= address (tms6100 m) < 4294967296 ->
  let m' := fst (run (repeat READ_DATA n) m) in
  readDataActive (tms6100 m') = true /\
  currentBit (tms6100 m') = (currentBit (tms6100 m) + Z.of_nat n) mod 8 /\
  address (tms6100 m') =
    u32 (address (tms6100 m) + (currentBit (tms6100 m) + Z.of_nat n) / 8) /\
  validAddressLoadedFlag (tms6100 m') = validAddressLoadedFlag (tms6100 m) /\
  loadAddressNibble (tms6100 m') = loadAddressNibble (tms6100 m) /\
  bankSelectNumber (tms6100 m') = bankSelectNumber (tms6100 m).
Proof.
  revert m. induction n as [|n IH]; intros m Hrd Hk Ha; cbv zeta.
  - cbn [repeat run skip fst]. change (Z.of_nat 0) with 0.
    rewrite Z.add_0_r, Z.mod_small, Z.div_small, Z.add_0_r, u32_small by lia.
    repeat split; assumption.
  - rewrite run_READ_DATA_succ.
    destruct (session_clock m Hrd Hk) as (Hrd1 & Hk1 & Ha1).
    destruct (session_clock_frame m Hrd Hk) as (Hv1 & Hp1 & Hb1).
    set (m1 := fst (ISR_TMS6100_M0_INT_VECT m)) in *.
    destruct (Z.eqb_spec (currentBit (tms6100 m)) 7) as [E | NE].
    + destruct (IH m1 Hrd1 ltac:(lia) ltac:(rewrite Ha1; apply u32_range))
        as (Hrd2 & Hk2 & Ha2 & Hv2 & Hp2 & Hb2).
      rewrite Hk1 in Hk2, Ha2. rewrite Ha1 in Ha2.
      rewrite E.
      replace (7 + Z.of_nat (S n)) with (Z.of_nat n + 1 * 8) by lia.
      rewrite Z.mod_add, Z.div_add by lia.
      rewrite Z.add_0_l in Hk2, Ha2.
      repeat split; try congruence.
      rewrite Ha2. unfold u32. rewrite Zplus_mod_idemp_l. f_equal. lia.
    + destruct (IH m1 Hrd1 ltac:(lia) ltac:(lia))
        as (Hrd2 & Hk2 & Ha2 & Hv2 & Hp2 & Hb2).
      rewrite Hk1 in Hk2, Ha2. rewrite Ha1 in Ha2.
      replace (currentBit (tms6100 m) + Z.of_nat (S n))
        with (currentBit (tms6100 m) + 1 + Z.of_nat n) by lia.
      repeat split; congruence.
Qed.

(** X11.  A READ DATA edge right after a LOAD ADDRESS edge starts a session
    exactly when that edge delivered the fifth nibble.  After any of the
    first four nibbles it is a dummy read: it throws the partial address
    away, puts the nibble pointer back to 0 and starts nothing.  Either way
    it writes no latch of ADD8. *)
Theorem read_after_load (pins : addressPins) (m : mcu) :
  nibble_pointer_ok m ->
  let m1 := fst (handler (LOAD_ADDRESS pins) m) in
  let r2 := handler READ_DATA m1 in
  snd r2 = [] /\
  (loadAddressNibble (tms6100 m) = 4 ->
   readDataActive (tms6100 (fst r2)) = true /\
   currentBit (tms6100 (fst r2)) = 0 /\
   address (tms6100 (fst r2)) =
     Z.land (Z.lor (address (tms6100 m)) (Z.shiftl (addressNibble pins) 16))
            0x3FFFF) /\
  (loadAddressNibble (tms6100 m) <> 4 ->
   readDataActive (tms6100 (fst r2)) = false /\
   validAddressLoadedFlag (tms6100 (fst r2)) = false /\
   address (tms6100 (fst r2)) = 0 /\
   loadAddressNibble (tms6100 (fst r2)) = 0).
Proof.
  intros Hi. cbv zeta. cbv [handler].
  rewrite (M1_full pins m Hi). cbv zeta. cbn [fst].
  pose proof (addressNibble_range pins) as Hn.
  destruct m as [[a bs i v rd k byte inp ba] r]. fields_all.
  destruct (Z.eqb_spec i 4) as [E | NE].
  - rewrite (M0_start_pulse (mkMcu _ _)) by side. norm.
    split; [reflexivity|]. split; [|intros; contradiction].
    intros _. subst i. change (4 =? 0) with false. cbv iota.
    change (4 * 4) with 16. rewrite u32_nibble_shift by lia.
    repeat split; reflexivity.
  - rewrite (M0_dummy_read (mkMcu _ _)) by side. norm.
    split; [reflexivity|]. split; [intros; contradiction|].
    intros _. repeat split; reflexivity.
Qed.

Lemma nibble_pointer_next (i : Z) :
  0 <= i <= 4 ->
  (if i =? 4 then 0 else i + 1) = (i + 1) mod 5 /\
  (i =? 4) = ((i + 1) mod 5 =? 0).
Proof.
  intros Hi.
  assert (i = 0 \/ i = 1 \/ i = 2 \/ i = 3 \/ i = 4) as E by lia.
  destruct E as [E | [E | [E | [E | E]]]]; subst i; split; reflexivity.
Qed.

(** X12.  The nibble pointer counts LOAD ADDRESS edges modulo 5.  After any
    number of LOAD ADDRESS edges in a row, from a pointer p in 0..4, the
    pointer is (p + number of edges) mod 5, and after at least one edge the
    address is valid exactly when that is 0.  So a host that starts a load
    with the pointer out of step does not get a valid address after its own
    fifth nibble. *)
Theorem load_edges_count (ps : list addressPins) (m : mcu) :
  nibble_pointer_ok m ->
  let m' := fst (run (load_edges ps) m) in
  let c := (loadAddressNibble (tms6100 m) + Z.of_nat (length ps)) mod 5 in
  loadAddressNibble (tms6100 m') = c /\
  (ps <> [] -> validAddressLoadedFlag (tms6100 m') = (c =? 0)).
Proof.
  revert m. induction ps as [|q ps IH]; intros m Hi; cbv zeta.
  - cbn [load_edges map run skip fst length]. change (Z.of_nat 0) with 0.
    unfold nibble_pointer_ok in Hi.
    rewrite Z.add_0_r, Z.mod_small by lia.
    split; [reflexivity | intros H; contradiction].
  - cbn [load_edges map run]. cbv [seq]. cbn [fst].
    fold (load_edges ps). cbv [handler].
    destruct (M1_nibble_pointer q m Hi) as (Hp & Hv & _).
    unfold nibble_pointer_ok in Hi.
    destruct (nibble_pointer_next _ Hi) as (Hnext & Hvalid).
    rewrite Hnext in Hp. rewrite Hvalid in Hv.
    set (m1 := fst (ISR_TMS6100_M1_INT_VECT q m)) in *.
    assert (nibble_pointer_ok m1) as Hi1
      by (unfold nibble_pointer_ok; rewrite Hp;
          pose proof (Z.mod_pos_bound (loadAddressNibble (tms6100 m) + 1) 5);
          lia).
    destruct (IH m1 Hi1) as (Hp' & Hv').
    assert ((loadAddressNibble (tms6100 m1) + Z.of_nat (length ps)) mod 5 =
            (loadAddressNibble (tms6100 m) + Z.of_nat (length (q :: ps))) mod 5)
      as Hc.
    { rewrite Hp, Zplus_mod_idemp_l. f_equal. cbn [length]. lia. }
    rewrite Hc in Hp', Hv'.
    split; [exact Hp'|]. intros _.
    destruct ps as [|q' ps'].
    + cbn [load_edges map run skip fst]. rewrite Hv.
      cbn [length]. change (Z.of_nat 1) with 1. reflexivity.
    + apply Hv'. discriminate.
Qed.

(** X13.  The bank the start pulse derives from address is the stored
    bankSelectNumber.  The READ DATA handler never reads bankSelectNumber;
    it takes the bank from bits 14..17 of address.  In every state reached
    from boot that holds a valid address and no session the two agree: the
    start pulse sets the bank flag exactly when bankSelectNumber is this
    device's bank, fetches the PHROM byte at the address's offset in that
    case and 0xFF otherwise, and leaves ADD8 released. *)
Theorem start_pulse_follows_bank_select (es : list edge) :
  let m := fst (run es boot) in
  readDataActive (tms6100 m) = false ->
  validAddressLoadedFlag (tms6100 m) = true ->
  let m1 := fst (handler READ_DATA m) in
  bankActiveFlag (tms6100 m1) =
    (bankSelectNumber (tms6100 m) =? PHROM_BANK) /\
  currentByte (tms6100 m1) =
    (if bankSelectNumber (tms6100 m) =? PHROM_BANK
     then pgm_read_byte (offset_of (address (tms6100 m))) else 0xFF) /\
  ADD8_line m1 = Released.
Proof.
  cbv zeta. intros Hrd Hv.
  destruct (firmware_ok_run es boot firmware_ok_boot)
    as (_ & _ & _ & (Hb1 & _) & (_ & _ & Hf & _)).
  destruct (Hf Hrd Hv) as (_ & Hbs). rewrite Hbs.
  cbv [handler]. rewrite (M0_start_pulse _ Hrd Hv). cbv zeta.
  destruct (fst (run es boot)) as [[a bs i v rd k byte inp ba] [ddr port i1 i0 fl en d0 d1 d2 sp]].
  fields_all. norm. subst rd.
  destruct ddr; [specialize (Hb1 eq_refl); discriminate Hb1|].
  repeat split; reflexivity.
Qed.

End Emulator.

(** ** The bank 2 scenario *)

(** C8, as the code has it.  On a device configured with bank 2, loading the
    nibbles 0,0,0,8,0 accumulates 0x08000, sets bankSelectNumber to 2 and
    leaves the address register at 0x08000: the 18-bit mask keeps the bank
    bits, and it is the offset inside the bank that is 0.  The start pulse
    then sets bankActiveFlag and fetches the byte at offset 0, and the eight
    clock edges after it put that byte on ADD8 least significant bit
    first. *)
Theorem scenario_bank2_offset0 (phromData : Z -> Z) (m : mcu) :
  loadAddressNibble (tms6100 m) = 0 ->
  hw_consistent m = true ->
  Z.lor (Z.lor (Z.lor (Z.lor (addressNibble (pins_of_nibble 0))
                             (Z.shiftl (addressNibble (pins_of_nibble 0)) 4))
                      (Z.shiftl (addressNibble (pins_of_nibble 0)) 8))
               (Z.shiftl (addressNibble (pins_of_nibble 8)) 12))
        (Z.shiftl (addressNibble (pins_of_nibble 0)) 16) = 0x08000 /\
  bankSelectNumber
    (tms6100 (fst (run 2 phromData (load_nibbles [0; 0; 0; 8; 0]) m))) = 2 /\
  address
    (tms6100 (fst (run 2 phromData (load_nibbles [0; 0; 0; 8; 0]) m))) =
    0x08000 /\
  offset_of 0x08000 = 0 /\
  bankActiveFlag
    (tms6100
       (fst (run 2 phromData (load_nibbles [0; 0; 0; 8; 0] ++ [READ_DATA]) m)))
    = true /\
  currentByte
    (tms6100
       (fst (run 2 phromData (load_nibbles [0; 0; 0; 8; 0] ++ [READ_DATA]) m)))
    = pgm_read_byte phromData 0 /\
  observe 2 phromData (repeat READ_DATA 8)
    (fst (run 2 phromData (load_nibbles [0; 0; 0; 8; 0] ++ [READ_DATA]) m)) =
    map Driven (bits_lsb_first (pgm_read_byte phromData 0)) /\
  driven_levels false
    (snd (run 2 phromData (repeat READ_DATA 8)
            (fst (run 2 phromData
                    (load_nibbles [0; 0; 0; 8; 0] ++ [READ_DATA]) m)))) =
    bits_lsb_first (pgm_read_byte phromData 0).
Proof.
  intros Hi Hc.
  destruct (run_five_loads 2 phromData m
              (pins_of_nibble 0) (pins_of_nibble 0) (pins_of_nibble 0)
              (pins_of_nibble 8) (pins_of_nibble 0) Hi)
    as (Ha & Hv & _ & Hb & Hrd & Hc').
  specialize (Hc' Hc).
  change (run 2 phromData
            [LOAD_ADDRESS (pins_of_nibble 0); LOAD_ADDRESS (pins_of_nibble 0);
             LOAD_ADDRESS (pins_of_nibble 0); LOAD_ADDRESS (pins_of_nibble 8);
             LOAD_ADDRESS (pins_of_nibble 0)] m)
    with (run 2 phromData (load_nibbles [0; 0; 0; 8; 0]) m) in *.
  set (m5 := fst (run 2 phromData (load_nibbles [0; 0; 0; 8; 0]) m)) in *.
  change (Z.land _ 0x3FFFF) with 0x08000 in Ha.
  change (bank_of _) with 2 in Hb.
  assert (bank_of (address (tms6100 m5)) = 2) as Hbank
    by (rewrite Ha; reflexivity).
  destruct (session_first_byte 2 phromData m5 Hc' Hrd Hv Hbank)
    as (H1 & H2 & Hddr & H3 & H4 & _).
  rewrite Ha in H1, H3, H4. change (offset_of 0x08000) with 0 in H1, H3, H4.
  rewrite run_snoc. fold m5. rewrite Hddr in H4.
  split; [reflexivity|]. split; [exact Hb|]. split; [exact Ha|].
  split; [reflexivity|]. split; [exact H2|]. split; [exact H1|].
  split; [exact H3 | exact H4].
Qed.

(** ** The example states are states of the firmware *)

Lemma demo_loaded_bank2_reached :
  demo_loaded_bank2 =
  fst (run 2 demo_phromData (load_nibbles [0; 0; 0; 8; 0]) boot).
Proof. reflexivity. Qed.

Lemma demo_loaded_bank5_reached :
  demo_loaded_bank5 =
  fst (run 2 demo_phromData (load_nibbles [0; 0; 0; 4; 1]) boot).
Proof. reflexivity. Qed.

Lemma demo_last_bit_reached :
  demo_last_bit =
  fst (run 2 demo_phromData
         (load_nibbles [15; 15; 15; 11; 0] ++ READ_DATA :: repeat READ_DATA 7)
         boot).
Proof. reflexivity. Qed.

Lemma demo_states_reachable :
  reachable 2 demo_phromData demo_loaded_bank2 /\
  reachable 2 demo_phromData demo_loaded_bank5 /\
  reachable 2 demo_phromData demo_last_bit.
Proof.
  rewrite demo_loaded_bank2_reached, demo_loaded_bank5_reached,
    demo_last_bit_reached.
  repeat split; apply reachable_run; apply reachable_boot.
Qed.

Lemma demo_top_state_ok : state_ok demo_top.
Proof. cbv. intuition discriminate. Qed.

(** ** Instances *)

Lemma load_address_five_nibbles_witness :
  loadAddressNibble (tms6100 boot) = 0 /\
  address
    (tms6100
       (fst (run 2 demo_phromData (load_nibbles [5; 10; 15; 11; 14]) boot))) =
    0x2BFA5 /\
  bankSelectNumber
    (tms6100
       (fst (run 2 demo_phromData (load_nibbles [5; 10; 15; 11; 14]) boot))) =
    10.
Proof.
  split; [reflexivity|].
  destruct (load_address_five_nibbles 2 demo_phromData boot
              (pins_of_nibble 5) (pins_of_nibble 10) (pins_of_nibble 15)
              (pins_of_nibble 11) (pins_of_nibble 14) eq_refl)
    as (Ha & _ & _ & Hb).
  split; [exact Ha | exact Hb].
Defined.

Lemma load_address_cancels_read_witness :
  hw_consistent demo_last_bit = true /\
  readDataActive (tms6100 demo_last_bit) = true /\
  readDataActive
    (tms6100
       (fst (handler 2 demo_phromData (LOAD_ADDRESS (pins_of_nibble 3))
               demo_last_bit))) = false /\
  ADD8_line
    (fst (handler 2 demo_phromData (LOAD_ADDRESS (pins_of_nibble 3))
            demo_last_bit)) = Released.
Proof.
  split; [reflexivity|]. split; [reflexivity|].
  destruct (load_address_cancels_read 2 demo_phromData (pins_of_nibble 3)
              demo_last_bit eq_refl) as (Hrd & _ & _ & Hline & _).
  split; [exact Hrd | exact Hline].
Defined.

Lemma read_session_emits_byte_witness :
  hw_consistent demo_loaded_bank2 = true /\
  readDataActive (tms6100 demo_loaded_bank2) = false /\
  validAddressLoadedFlag (tms6100 demo_loaded_bank2) = true /\
  bank_of (address (tms6100 demo_loaded_bank2)) = 2 /\
  observe 2 demo_phromData (repeat READ_DATA 8)
    (fst (handler 2 demo_phromData READ_DATA demo_loaded_bank2)) =
    map Driven [true; false; true; false; false; true; false; true].
Proof.
  do 4 (split; [reflexivity|]).
  destruct (read_session_emits_byte 2 demo_phromData demo_loaded_bank2
              eq_refl eq_refl eq_refl eq_refl) as (_ & Hobs & _).
  exact Hobs.
Defined.

Lemma dummy_read_resets_witness :
  readDataActive
    (tms6100 (fst (run 2 demo_phromData (load_nibbles [5; 10]) boot))) =
    false /\
  validAddressLoadedFlag
    (tms6100 (fst (run 2 demo_phromData (load_nibbles [5; 10]) boot))) =
    false /\
  address
    (tms6100 (fst (run 2 demo_phromData (load_nibbles [5; 10]) boot))) =
    0xA5 /\
  address
    (tms6100
       (fst (handler 2 demo_phromData READ_DATA
               (fst (run 2 demo_phromData (load_nibbles [5; 10]) boot))))) =
    0 /\
  snd (handler 2 demo_phromData READ_DATA
         (fst (run 2 demo_phromData (load_nibbles [5; 10]) boot))) = [].
Proof.
  do 3 (split; [reflexivity|]).
  destruct (dummy_read_resets 2 demo_phromData
              (fst (run 2 demo_phromData (load_nibbles [5; 10]) boot))
              eq_refl eq_refl) as (Hlog & _ & _ & Ha & _).
  split; [exact Ha | exact Hlog].
Defined.

Lemma byte_end_crossing_bank_witness :
  hw_consistent demo_last_bit = true /\
  readDataActive (tms6100 demo_last_bit) = true /\
  bankActiveFlag (tms6100 demo_last_bit) = true /\
  currentBit (tms6100 demo_last_bit) = 7 /\
  address
    (tms6100 (fst (handler 2 demo_phromData READ_DATA demo_last_bit))) =
    0x0C000 /\
  ADD8_line (fst (handler 2 demo_phromData READ_DATA demo_last_bit)) =
    Driven true /\
  ADD8_line
    (fst (handler 2 demo_phromData READ_DATA
            (fst (handler 2 demo_phromData READ_DATA demo_last_bit)))) =
    Released.
Proof.
  do 4 (split; [reflexivity|]).
  destruct (byte_end_crossing_bank 2 demo_phromData demo_last_bit
              eq_refl eq_refl eq_refl eq_refl) as (Ha & _ & Hline & Hnext).
  split; [exact Ha|]. split; [exact Hline|].
  destruct Hnext as (_ & _ & _ & Hrel); [|exact Hrel].
  rewrite Ha. intros E. vm_compute in E. discriminate E.
Defined.

Lemma read_session_foreign_bank_witness :
  hw_consistent demo_loaded_bank5 = true /\
  readDataActive (tms6100 demo_loaded_bank5) = false /\
  validAddressLoadedFlag (tms6100 demo_loaded_bank5) = true /\
  bank_of (address (tms6100 demo_loaded_bank5)) <> 2 /\
  currentByte
    (tms6100 (fst (handler 2 demo_phromData READ_DATA demo_loaded_bank5))) =
    0xFF /\
  snd (run 2 demo_phromData (repeat READ_DATA 8)
         (fst (handler 2 demo_phromData READ_DATA demo_loaded_bank5))) = [].
Proof.
  do 3 (split; [reflexivity|]).
  assert (bank_of (address (tms6100 demo_loaded_bank5)) <> 2) as Hbank
    by (intros E; vm_compute in E; discriminate E).
  split; [exact Hbank|].
  destruct (read_session_foreign_bank 2 demo_phromData demo_loaded_bank5
              eq_refl eq_refl eq_refl Hbank) as (_ & Hbyte & _ & _ & Hlog & _).
  split; [exact Hbyte | exact Hlog].
Defined.

Lemma byte_end_address_not_masked_witness :
  readDataActive (tms6100 demo_top) = true /\
  currentBit (tms6100 demo_top) = 7 /\
  address (tms6100 (fst (handler 2 demo_phromData READ_DATA demo_top))) =
    (0xFFFFFFFF + 1) mod 2 ^ 32 /\
  address
    (tms6100
       (fst (handler 2 demo_phromData (LOAD_ADDRESS (pins_of_nibble 7))
               demo_top))) = 7.
Proof.
  do 2 (split; [reflexivity|]).
  destruct (byte_end_address_not_masked 2 demo_phromData demo_top
              eq_refl eq_refl)
    as (Ha & _ & _ & _ & _ & _ & _ & _ & _ & Hfirst).
  split; [exact Ha|].
  exact (Hfirst (pins_of_nibble 7) demo_top eq_refl).
Defined.

Lemma scenario_bank2_offset0_witness :
  loadAddressNibble (tms6100 boot) = 0 /\
  hw_consistent boot = true /\
  address
    (tms6100
       (fst (run 2 demo_phromData (load_nibbles [0; 0; 0; 8; 0]) boot))) =
    0x08000 /\
  currentByte
    (tms6100
       (fst (run 2 demo_phromData
               (load_nibbles [0; 0; 0; 8; 0] ++ [READ_DATA]) boot))) =
    pgm_read_byte demo_phromData 0.
Proof.
  do 2 (split; [reflexivity|]).
  destruct (scenario_bank2_offset0 demo_phromData boot eq_refl eq_refl)
    as (_ & _ & Ha & _ & _ & Hbyte & _).
  split; [exact Ha | exact Hbyte].
Defined.

Lemma start_pulse_frame_witness :
  readDataActive (tms6100 demo_loaded_bank2) = false /\
  validAddressLoadedFlag (tms6100 demo_loaded_bank2) = true /\
  snd (handler 2 demo_phromData READ_DATA demo_loaded_bank2) = [] /\
  ADD8_line (fst (handler 2 demo_phromData READ_DATA demo_loaded_bank2)) =
    ADD8_line demo_loaded_bank2.
Proof.
  do 2 (split; [reflexivity|]).
  destruct (start_pulse_frame 2 demo_phromData demo_loaded_bank2
              eq_refl eq_refl) as (Hlog & _ & _ & Hline & _).
  split; [exact Hlog | exact Hline].
Defined.

Lemma nibble_pointer_invariant_witness :
  nibble_pointer_ok demo_loaded_bank2 /\
  nibble_pointer_ok
    (fst (handler 2 demo_phromData (LOAD_ADDRESS (pins_of_nibble 9))
            demo_loaded_bank2)).
Proof.
  assert (nibble_pointer_ok demo_loaded_bank2) as H
    by (unfold nibble_pointer_ok; cbn; lia).
  split; [exact H|].
  destruct (nibble_pointer_invariant 2 demo_phromData) as (_ & Hstep & _).
  apply Hstep. exact H.
Defined.

(** ** Where the specification and the code part *)

Lemma byte_end_release_deferred :
  readDataActive (tms6100 demo_last_bit) = true /\
  bankActiveFlag (tms6100 demo_last_bit) = true /\
  currentBit (tms6100 demo_last_bit) = 7 /\
  bank_of (address (tms6100 demo_last_bit)) = 2 /\
  bank_of
    (address
       (tms6100 (fst (handler 2 demo_phromData READ_DATA demo_last_bit)))) <>
    2 /\
  ~ (bankActiveFlag
       (tms6100 (fst (handler 2 demo_phromData READ_DATA demo_last_bit))) =
       false /\
     ADD8_line (fst (handler 2 demo_phromData READ_DATA demo_last_bit)) =
       Released).
Proof.
  do 4 (split; [reflexivity|]).
  split.
  - intros E. vm_compute in E. discriminate E.
  - intros [_ E]. vm_compute in E. discriminate E.
Qed.

Lemma byte_end_address_wraps :
  readDataActive (tms6100 demo_top) = true /\
  currentBit (tms6100 demo_top) = 7 /\
  address (tms6100 (fst (handler 2 demo_phromData READ_DATA demo_top))) <>
    address (tms6100 demo_top) + 1.
Proof.
  do 2 (split; [reflexivity|]).
  intros E. vm_compute in E. discriminate E.
Qed.

Lemma scenario_address_keeps_bank_bits :
  address
    (tms6100
       (fst (run 2 demo_phromData (load_nibbles [0; 0; 0; 8; 0]) boot))) <>
    0x00000.
Proof. intros E. vm_compute in E. discriminate E. Qed.

(** ** Instances of the further properties *)

Lemma clock_edge_output_witness :
  state_ok (fst (handler 2 demo_phromData READ_DATA demo_loaded_bank2)) /\
  readDataActive
    (tms6100 (fst (handler 2 demo_phromData READ_DATA demo_loaded_bank2))) =
    true /\
  line_trace false false
    (snd (handler 2 demo_phromData READ_DATA
            (fst (handler 2 demo_phromData READ_DATA demo_loaded_bank2)))) =
    [Driven false; Driven true] /\
  ADD8_line
    (fst (handler 2 demo_phromData READ_DATA
            (fst (handler 2 demo_phromData READ_DATA demo_loaded_bank2)))) =
    Driven true.
Proof.
  assert (state_ok
            (fst (handler 2 demo_phromData READ_DATA demo_loaded_bank2)))
    as H by (cbv; intuition discriminate).
  split; [exact H|]. split; [reflexivity|].
  destruct (clock_edge_output 2 demo_phromData
              (fst (handler 2 demo_phromData READ_DATA demo_loaded_bank2))
              H eq_refl)
    as (Hline & _ & Htrace).
  split; [exact Htrace | exact Hline].
Defined.

Lemma session_shows_bytes_witness :
  hw_consistent
    (fst (run 2 demo_phromData (load_nibbles [15; 15; 15; 11; 0]) boot)) =
    true /\
  readDataActive
    (tms6100
       (fst (run 2 demo_phromData (load_nibbles [15; 15; 15; 11; 0]) boot))) =
    false /\
  validAddressLoadedFlag
    (tms6100
       (fst (run 2 demo_phromData (load_nibbles [15; 15; 15; 11; 0]) boot))) =
    true /\
  0 <= 0x0BFFF < 4294967296 /\
  observe 2 demo_phromData (byte_clocks 2)
    (fst (handler 2 demo_phromData READ_DATA
            (fst (run 2 demo_phromData
                    (load_nibbles [15; 15; 15; 11; 0]) boot)))) =
    map Driven [false; false; false; false; false; false; false; true] ++
    repeat Released 8.
Proof.
  do 3 (split; [reflexivity|]). split; [lia|].
  assert (0 <= address
                 (tms6100
                    (fst (run 2 demo_phromData
                            (load_nibbles [15; 15; 15; 11; 0]) boot)))
          < 4294967296) as Ha
    by (change (0 <= 0x0BFFF < 4294967296); lia).
  exact (session_shows_bytes 2 demo_phromData
           (fst (run 2 demo_phromData (load_nibbles [15; 15; 15; 11; 0]) boot))
           2 eq_refl eq_refl eq_refl Ha).
Defined.

Lemma session_reads_phrom_witness :
  hw_consistent demo_loaded_bank2 = true /\
  bank_of (address (tms6100 demo_loaded_bank2)) = 2 /\
  offset_of (address (tms6100 demo_loaded_bank2)) + Z.of_nat 2 <= 16384 /\
  observe 2 demo_phromData (byte_clocks 2)
    (fst (handler 2 demo_phromData READ_DATA demo_loaded_bank2)) =
    map Driven [true; false; true; false; false; true; false; true;
                false; true; false; true; false; false; true; true].
Proof.
  assert (0 <= address (tms6100 demo_loaded_bank2) <= 0x3FFFF) as Hb
    by (change (0 <= 0x08000 <= 0x3FFFF); lia).
  assert (offset_of (address (tms6100 demo_loaded_bank2)) + Z.of_nat 2
          <= 16384) as Ho
    by (change (2 <= 16384); lia).
  split; [reflexivity|]. split; [reflexivity|]. split; [exact Ho|].
  exact (session_reads_phrom 2 demo_phromData demo_loaded_bank2 2
           eq_refl eq_refl eq_refl Hb eq_refl Ho).
Defined.

Lemma address_high_bits_unobservable_witness :
  state_ok demo_top /\
  observe 2 demo_phromData [READ_DATA; READ_DATA] (mask18 demo_top) =
    observe 2 demo_phromData [READ_DATA; READ_DATA] demo_top.
Proof.
  assert (state_ok demo_top) as H by (cbv; intuition discriminate).
  split; [exact H|].
  destruct (address_high_bits_unobservable 2 demo_phromData demo_top
              [READ_DATA; READ_DATA] H) as (_ & Hobs & _).
  exact Hobs.
Defined.

Lemma clock_edges_closed_form_witness :
  readDataActive (tms6100 demo_last_bit) = true /\
  currentBit
    (tms6100
       (fst (run 2 demo_phromData (repeat READ_DATA 10) demo_last_bit))) = 1 /\
  address
    (tms6100
       (fst (run 2 demo_phromData (repeat READ_DATA 10) demo_last_bit))) =
    0x0C001.
Proof.
  assert (0 <= currentBit (tms6100 demo_last_bit) <= 7) as Hk
    by (change (0 <= 7 <= 7); lia).
  assert (0 <= address (tms6100 demo_last_bit) < 4294967296) as Ha
    by (change (0 <= 0x0BFFF < 4294967296); lia).
  split; [reflexivity|].
  destruct (clock_edges_closed_form 2 demo_phromData 10 demo_last_bit
              eq_refl Hk Ha) as (_ & Hc & Hadr & _).
  split; [exact Hc | exact Hadr].
Defined.

Lemma read_after_load_witness :
  nibble_pointer_ok demo_loaded_bank5 /\
  snd (handler 2 demo_phromData READ_DATA
         (fst (handler 2 demo_phromData
                 (LOAD_ADDRESS (pins_of_nibble 9)) demo_loaded_bank5))) = [] /\
  validAddressLoadedFlag
    (tms6100
       (fst (handler 2 demo_phromData READ_DATA
               (fst (handler 2 demo_phromData
                       (LOAD_ADDRESS (pins_of_nibble 9))
                       demo_loaded_bank5))))) = false.
Proof.
  assert (nibble_pointer_ok demo_loaded_bank5) as H
    by (change (0 <= 0 <= 4); lia).
  assert (loadAddressNibble (tms6100 demo_loaded_bank5) <> 4) as Hn
    by (change (0 <> 4); lia).
  split; [exact H|].
  destruct (read_after_load 2 demo_phromData (pins_of_nibble 9)
              demo_loaded_bank5 H) as (Hlog & _ & Hrest).
  destruct (Hrest Hn) as (_ & Hv & _).
  split; [exact Hlog | exact Hv].
Defined.

Lemma load_edges_count_witness :
  nibble_pointer_ok boot /\
  loadAddressNibble
    (tms6100
       (fst (run 2 demo_phromData
               (load_edges (map pins_of_nibble [1; 2; 3; 4; 5; 6; 7]))
               boot))) = 2.
Proof.
  assert (nibble_pointer_ok boot) as H by (change (0 <= 0 <= 4); lia).
  split; [exact H|].
  destruct (load_edges_count 2 demo_phromData
              (map pins_of_nibble [1; 2; 3; 4; 5; 6; 7]) boot H)
    as (Hp & _).
  exact Hp.
Defined.

Lemma start_pulse_follows_bank_select_witness :
  readDataActive
    (tms6100
       (fst (run 2 demo_phromData (load_nibbles [0; 0; 0; 4; 1]) boot))) =
    false /\
  validAddressLoadedFlag
    (tms6100
       (fst (run 2 demo_phromData (load_nibbles [0; 0; 0; 4; 1]) boot))) =
    true /\
  bankActiveFlag
    (tms6100
       (fst (handler 2 demo_phromData READ_DATA
               (fst (run 2 demo_phromData
                       (load_nibbles [0; 0; 0; 4; 1]) boot))))) = false.
Proof.
  split; [reflexivity|]. split; [reflexivity|].
  destruct (start_pulse_follows_bank_select 2 demo_phromData
              (load_nibbles [0; 0; 0; 4; 1]) eq_refl eq_refl)
    as (Hba & _).
  exact Hba.
Defined.
